(** * syen: air-written digit recognition from IMU streams

    A shallow embedding of [infer.py] (real-time kNN inference over a serial
    stream) and [train_svm_digits.py] (offline training of the kNN model),
    together with the properties of the segmentation, feature extraction,
    row parsing and corpus loading code.

    Conventions of the embedding:
    - a pandas [DataFrame] is its list of column names and its list of rows;
    - Python and numpy integers are [Z]; the [int64] storage pandas chooses
      for a column of Python ints is not modelled;
    - float64 arithmetic is an interface ([Arith]) with two instances: IEEE
      binary64 (Rocq's primitive floats), on which the code can be run, and
      the real numbers, which give the exact-arithmetic reading;
    - a raised exception is the left summand of a [result];
    - the library calls (pandas, numpy, [scipy.signal.find_peaks]) are
      modelled by what they compute on the values the scripts pass them;
      sums run from 0, first element first;
    - [CHANNELS], which infer.py reads from the model file, is the list the
      training script stores there;
    - the endless loop of [main] is read on the finite run of lines it has
      consumed so far. *)

From Stdlib Require Import ZArith List String Ascii Bool Lia.
From Stdlib Require Import DecimalString.
From Stdlib Require Import Floats Reals Lra.
Import ListNotations.

Local Open Scope Z_scope.
Local Open Scope list_scope.

Set Implicit Arguments.

(* ================================================================= *)
(** ** Exceptions *)

Inductive exn : Type :=
| ValueError
| KeyError
| IndexError
| RuntimeError.

Definition result (A : Type) : Type := (exn + A)%type.

Definition ret {A : Type} (a : A) : result A := inr a.

Definition raise {A : Type} (e : exn) : result A := inl e.

Definition bind {A B : Type} (m : result A) (k : A -> result B) : result B :=
  match m with
  | inl e => inl e
  | inr a => k a
  end.

Notation "x <- m ;; k" := (bind m (fun x => k))
  (at level 61, m at next level, right associativity).

(* ================================================================= *)
(** ** Python sequences: slices and indexing *)

(** A slice bound [i] on a sequence of length [n]: a negative bound counts
    from the end, and the result is clipped to [0 .. n]. *)
Definition slice_bound (n i : Z) : Z :=
  Z.max 0 (Z.min n (if i <? 0 then i + n else i)).

(** [l[start:stop]]; [None] is an omitted bound. *)
Definition slice {A : Type} (start stop : option Z) (l : list A) : list A :=
  let n := Z.of_nat (List.length l) in
  let a := match start with Some i => slice_bound n i | None => 0 end in
  let b := match stop with Some i => slice_bound n i | None => n end in
  firstn (Z.to_nat (b - a)) (skipn (Z.to_nat a) l).

(** [l[i]] (also [Series.iloc[i]]): [IndexError] out of range. *)
Definition item {A : Type} (l : list A) (i : Z) : result A :=
  let n := Z.of_nat (List.length l) in
  let j := if i <? 0 then i + n else i in
  if (j <? 0) || (n <=? j) then raise IndexError
  else match nth_error l (Z.to_nat j) with
       | Some a => ret a
       | None => raise IndexError
       end.

(** [Series.is_monotonic_increasing]: every value is at least the one
    before it (equal neighbours are allowed). *)
Fixpoint is_monotonic_increasing (l : list Z) : bool :=
  match l with
  | [] => true
  | a :: l' =>
      match l' with
      | [] => true
      | b :: _ => (a <=? b) && is_monotonic_increasing l'
      end
  end.

(* ================================================================= *)
(** ** float64 arithmetic as an interface *)

Class Arith (F : Type) : Type := {
  of_Z : Z -> F;          (* int to float conversion *)
  eps : F;                (* the literal 1e-6 *)
  fadd : F -> F -> F;
  fsub : F -> F -> F;
  fmul : F -> F -> F;
  fdiv : F -> F -> F;
  fsqrt : F -> F;
  fabs : F -> F;
  flt : F -> F -> bool;   (* a < b *)
  fle : F -> F -> bool;   (* a <= b *)
  feq : F -> F -> bool    (* a == b *)
}.

(** IEEE binary64, as numpy's float64. *)
#[export] Instance float64 : Arith float := {
  of_Z z := SF2Prim (SpecFloat.binary_normalize FloatOps.prec FloatOps.emax z 0 false);
  eps := 0x1.0c6f7a0b5ed8dp-20%float;
  fadd := PrimFloat.add;
  fsub := PrimFloat.sub;
  fmul := PrimFloat.mul;
  fdiv := PrimFloat.div;
  fsqrt := PrimFloat.sqrt;
  fabs := PrimFloat.abs;
  flt := PrimFloat.ltb;
  fle := PrimFloat.leb;
  feq := PrimFloat.eqb
}.

(** Exact arithmetic: the same code read over the real numbers. *)
#[export] Instance exact : Arith R := {
  of_Z := IZR;
  eps := (1 / 1000000)%R;
  fadd := Rplus;
  fsub := Rminus;
  fmul := Rmult;
  fdiv := Rdiv;
  fsqrt := sqrt;
  fabs := Rabs;
  flt a b := if Rlt_dec a b then true else false;
  fle a b := if Rle_dec a b then true else false;
  feq a b := if Req_dec_T a b then true else false
}.

(* ================================================================= *)
(** ** Data model: sample records and frames *)

Section DataModel.
Variable F : Type.

(** One parsed row: [t_ms,ax,ay,az,gx,gy,gz,state,label]. *)
Record Rec : Type := mkRec {
  t_ms : Z;
  ax : F;
  ay : F;
  az : F;
  gx : F;
  gy : F;
  gz : F;
  state : Z;
  label : string
}.

(** A frame: the names of the columns it has, and its rows.  A row carries a
    value for every known column; the value of a column the frame does not
    have is never read. *)
Record DataFrame : Type := mkDF {
  columns : list string;
  rows : list Rec
}.

Definition has_column (c : string) (df : DataFrame) : bool :=
  existsb (String.eqb c) (columns df).

(** [pd.DataFrame()]: no columns, no rows. *)
Definition pd_DataFrame : DataFrame := mkDF [] [].

Definition record_keys : list string :=
  ["t_ms"; "ax"; "ay"; "az"; "gx"; "gy"; "gz"; "state"; "label"]%string.

(** [pd.DataFrame(buf)] for a list of parsed rows. *)
Definition DataFrame_of_records (buf : list Rec) : DataFrame :=
  match buf with
  | [] => pd_DataFrame
  | _ :: _ => mkDF record_keys buf
  end.

(** [len(df)] *)
Definition len (df : DataFrame) : Z := Z.of_nat (List.length (rows df)).

(** [df.empty]: some axis has length 0. *)
Definition empty (df : DataFrame) : bool :=
  (Z.of_nat (List.length (columns df)) =? 0) || (len df =? 0).

(** [df[mask]] for a row-wise boolean mask. *)
Definition select (p : Rec -> bool) (df : DataFrame) : DataFrame :=
  mkDF (columns df) (filter p (rows df)).

(** [df.iloc[start:stop]] *)
Definition iloc (start stop : option Z) (df : DataFrame) : DataFrame :=
  mkDF (columns df) (slice start stop (rows df)).

(** [df["t_ms"]] as a list of values. *)
Definition col_t_ms (df : DataFrame) : list Z := map t_ms (rows df).

End DataModel.

Arguments mkRec {F}.
Arguments mkDF {F}.
Arguments pd_DataFrame {F}.

(* ================================================================= *)
(** ** numpy on one-dimensional float arrays *)

Section Numpy.
Context {F : Type} {A : Arith F}.

(** [x.size] *)
Definition size (x : list F) : Z := Z.of_nat (List.length x).

(** [x[i]] for an index known to be in range. *)
Definition at_index (x : list F) (i : Z) : F := nth (Z.to_nat i) x (of_Z 0).

(** [np.isnan]: a NaN is the only value that differs from itself. *)
Definition isnan (v : F) : bool := negb (feq v v).

(** [np.sum]: accumulation from 0, first element first. *)
Definition np_sum (x : list F) : F := fold_left fadd x (of_Z 0).

(** [np.mean] *)
Definition np_mean (x : list F) : F := fdiv (np_sum x) (of_Z (size x)).

(** [a * b], element by element. *)
Definition arr_mul (a b : list F) : list F :=
  map (fun p => fmul (fst p) (snd p)) (combine a b).

(** [np.abs] *)
Definition np_abs (x : list F) : list F := map fabs x.

(** [np.std] (population standard deviation): the mean is taken off, the
    differences are squared and averaged, and the root is taken. *)
Definition np_std (x : list F) : F :=
  let arrmean := np_mean x in
  let d := map (fun v => fsub v arrmean) x in
  fsqrt (np_mean (arr_mul d d)).

(** [np.maximum] and [np.minimum] on two floats: a NaN on the left wins. *)
Definition maximum (a b : F) : F := if fle b a || isnan a then a else b.

Definition minimum (a b : F) : F := if fle a b || isnan a then a else b.

(** [np.max] and [np.min]: [ValueError] on an empty array. *)
Definition np_max (x : list F) : result F :=
  match x with
  | [] => raise ValueError
  | v :: x' => ret (fold_left maximum x' v)
  end.

Definition np_min (x : list F) : result F :=
  match x with
  | [] => raise ValueError
  | v :: x' => ret (fold_left minimum x' v)
  end.

(** The order numpy sorts floats by: NaNs go last. *)
Definition sort_lt (a b : F) : bool := flt a b || (isnan b && negb (isnan a)).

Fixpoint insert_sorted (v : F) (l : list F) : list F :=
  match l with
  | [] => [v]
  | a :: l' => if sort_lt v a then v :: l else a :: insert_sorted v l'
  end.

Definition np_sort (x : list F) : list F := fold_right insert_sorted [] x.

(** [np.median]: the mean of the middle element, or of the two middle
    elements, of the sorted array; NaN when the array holds a NaN. *)
Definition np_median (x : list F) : F :=
  let part := np_sort x in
  let index := size part / 2 in
  let indexer :=
    if size part mod 2 =? 1 then slice (Some index) (Some (index + 1)) part
    else slice (Some (index - 1)) (Some (index + 1)) part in
  match rev part with
  | last :: _ => if isnan last then last else np_mean indexer
  | [] => np_mean indexer
  end.

(** The number of [True] entries of a boolean array. *)
Definition count_true (b : list bool) : Z :=
  Z.of_nat (List.length (filter (fun v => v) b)).

(** [int(np.sum((x[:-1]*x[1:]) < 0))] *)
Definition zero_crossings (x : list F) : Z :=
  count_true (map (fun v => flt v (of_Z 0))
                  (arr_mul (slice None (Some (-1)) x) (slice (Some 1) None x))).

(** The inference-time peak count, infer.py lines 126-129. *)
Definition cheap_peaks (x : list F) : Z :=
  let thr := fmul (np_std x) (of_Z 1) in
  let mid := np_abs (slice (Some 1) (Some (-1)) x) in
  let before := np_abs (slice None (Some (-2)) x) in
  let after := np_abs (slice (Some 2) None x) in
  count_true (map (fun t => flt thr (fst (fst t))
                            && fle (snd (fst t)) (fst (fst t))
                            && fle (snd t) (fst (fst t)))
                  (combine (combine mid before) after)).

(** *** scipy.signal.find_peaks *)

(** The inner loop of [_local_maxima_1d]: the first index from [i_ahead] on
    that is [i_max] or holds a value unequal to [xi]. *)
Fixpoint look_ahead (fuel : nat) (x : list F) (xi : F) (i_ahead i_max : Z) : Z :=
  match fuel with
  | O => i_ahead
  | S fuel' =>
      if (i_ahead <? i_max) && feq (at_index x i_ahead) xi
      then look_ahead fuel' x xi (i_ahead + 1) i_max
      else i_ahead
  end.

(** The outer loop of [_local_maxima_1d]: a sample is a maximum when the
    sample before it is smaller and the next unequal sample is smaller; a
    flat maximum is reported once, at the middle of its plateau. *)
Fixpoint local_maxima_loop (fuel : nat) (x : list F) (i i_max : Z) : list Z :=
  match fuel with
  | O => []
  | S fuel' =>
      if i <? i_max then
        if flt (at_index x (i - 1)) (at_index x i) then
          let i_ahead := look_ahead (List.length x) x (at_index x i) (i + 1) i_max in
          if flt (at_index x i_ahead) (at_index x i) then
            ((i + (i_ahead - 1)) / 2) :: local_maxima_loop fuel' x (i_ahead + 1) i_max
          else local_maxima_loop fuel' x (i + 1) i_max
        else local_maxima_loop fuel' x (i + 1) i_max
      else []
  end.

Definition local_maxima_1d (x : list F) : list Z :=
  local_maxima_loop (List.length x) x 1 (size x - 1).

(** [find_peaks(x, height=h)[0]]: the local maxima at least [h] high. *)
Definition find_peaks (x : list F) (height : F) : list Z :=
  filter (fun p => fle height (at_index x p)) (local_maxima_1d x).

(** *** Per-trial normalisation and whole-trial sums *)

(** One column of [Xn = (X - mu) / sd] with [sd = X.std(axis=0) + 1e-6]. *)
Definition sd_of (x : list F) : F := fadd (np_std x) eps.

Definition normalized (x : list F) : list F :=
  let mu := np_mean x in
  let sd := sd_of x in
  map (fun v => fdiv (fsub v mu) sd) x.

(** [np.linalg.norm(M, axis=1)] for a matrix of three columns. *)
Fixpoint norm_rows (a b c : list F) : list F :=
  match a, b, c with
  | u :: a', v :: b', w :: c' =>
      fsqrt (np_sum [fmul u u; fmul v v; fmul w w]) :: norm_rows a' b' c'
  | _, _, _ => []
  end.

End Numpy.

(* ================================================================= *)
(** ** Python strings *)

(** A [str] is modelled as a string of characters with code points below
    256.  [str.isspace] on that range. *)
Definition is_space (c : ascii) : bool :=
  let n := Z.of_nat (nat_of_ascii c) in
  ((9 <=? n) && (n <=? 13)) || ((28 <=? n) && (n <=? 32)) || (n =? 133) || (n =? 160).

Fixpoint lstrip (s : string) : string :=
  match s with
  | EmptyString => EmptyString
  | String c s' => if is_space c then lstrip s' else s
  end.

Fixpoint rstrip (s : string) : string :=
  match s with
  | EmptyString => EmptyString
  | String c s' =>
      match rstrip s' with
      | EmptyString => if is_space c then EmptyString else String c EmptyString
      | r => String c r
      end
  end.

(** [s.strip()] *)
Definition strip (s : string) : string := rstrip (lstrip s).

(** [s.split(sep)] for a one-character separator: never an empty list. *)
Fixpoint split (sep : ascii) (s : string) : list string :=
  match s with
  | EmptyString => [EmptyString]
  | String c s' =>
      if Ascii.eqb c sep then EmptyString :: split sep s'
      else match split sep s' with
           | w :: ws => String c w :: ws
           | [] => [String c EmptyString]
           end
  end.

Definition is_digit (c : ascii) : bool :=
  let n := Z.of_nat (nat_of_ascii c) in (48 <=? n) && (n <=? 57).

Definition digit_value (c : ascii) : Z := Z.of_nat (nat_of_ascii c) - 48.

(* ================================================================= *)
(** ** infer.py *)

Module Infer.

Definition trim_ms : Z := 200.

(** [CHANNELS = MODEL["channels"]]: the channel list the training script
    stores in the model file. *)
Definition CHANNELS : list string := ["ax"; "ay"; "az"; "gx"; "gy"; "gz"]%string.

(** [keep_writing_segment], infer.py lines 88-100.  [df["state"]] on a frame
    without that column is a [KeyError]. *)
Definition keep_writing_segment {F : Type} (df : DataFrame F) : result (DataFrame F) :=
  if negb (has_column "state" df) then raise KeyError else
  let df := select (fun r => state r =? 1) df in
  if len df <? 8 then ret pd_DataFrame else
  if has_column "t_ms" df && is_monotonic_increasing (col_t_ms df) then
    t0 <- item (col_t_ms df) 0 ;;
    t1 <- item (col_t_ms df) (-1) ;;
    let left := t0 + trim_ms in
    let right := t1 - trim_ms in
    let df := select (fun r => (left <=? t_ms r) && (t_ms r <=? right)) df in
    if len df <? 8 then
      ret (if 4 <? len df then iloc (Some 2) (Some (-2)) df else df)
    else ret df
  else
    let k := Z.max 2 (len df / 20) in
    if 2 * k <? len df then ret (iloc (Some k) (Some (- k)) df)
    else ret df.

Section Features.
Context {F : Type} {A : Arith F}.

(** [feat_channel], infer.py lines 116-130. *)
Definition feat_channel (x : list F) : result (list F) :=
  if size x =? 0 then ret (repeat (of_Z 0) 8) else
  let mean := np_mean x in
  let std := np_std x in
  let rms := fsqrt (np_mean (arr_mul x x)) in
  hi <- np_max x ;;
  lo <- np_min x ;;
  let rng := fsub hi lo in
  let med := np_median x in
  let mad := np_median (np_abs (map (fun v => fsub v med) x)) in
  let eng := np_sum (arr_mul x x) in
  let zc := zero_crossings x in
  let peaks := cheap_peaks x in
  ret [mean; std; rms; rng; mad; eng; of_Z zc; of_Z peaks].

(** [trial_features], infer.py lines 102-136. *)
Definition trial_features (df : DataFrame F) : result (list F) :=
  if negb (forallb (fun c => has_column c df) CHANNELS) then raise KeyError else
  let ax := normalized (map (@ax F) (rows df)) in
  let ay := normalized (map (@ay F) (rows df)) in
  let az := normalized (map (@az F) (rows df)) in
  let gx := normalized (map (@gx F) (rows df)) in
  let gy := normalized (map (@gy F) (rows df)) in
  let gz := normalized (map (@gz F) (rows df)) in
  dur_s <- (if has_column "t_ms" df && is_monotonic_increasing (col_t_ms df) then
              t_last <- item (col_t_ms df) (-1) ;;
              t_first <- item (col_t_ms df) 0 ;;
              ret (fdiv (of_Z (t_last - t_first)) (of_Z 1000))
            else ret (of_Z 0)) ;;
  let a_path := np_sum (norm_rows ax ay az) in
  let g_path := np_sum (norm_rows gx gy gz) in
  let yaw_int := np_sum (np_abs gz) in
  f_ax <- feat_channel ax ;;
  f_ay <- feat_channel ay ;;
  f_az <- feat_channel az ;;
  f_gx <- feat_channel gx ;;
  f_gy <- feat_channel gy ;;
  f_gz <- feat_channel gz ;;
  ret (f_ax ++ f_ay ++ f_az ++ f_gx ++ f_gy ++ f_gz ++ [dur_s; a_path; g_path; yaw_int]).

Section Stream.
(** Python's [int(s)] and [float(s)] on a field ([None]: the call raises),
    and [int(PIPE.predict(x)[0])] of the loaded model. *)
Variable py_int : string -> option Z.
Variable py_float : string -> option F.
Variable predict : list F -> Z.

(** [parse_row], infer.py lines 138-150. *)
Definition parse_row (line : string) : option (Rec F) :=
  let p := split "," (strip line) in
  if negb (Z.of_nat (List.length p) =? 9) then None else
  match p with
  | [p0; p1; p2; p3; p4; p5; p6; p7; p8] =>
      match py_int p0, py_float p1, py_float p2, py_float p3,
            py_float p4, py_float p5, py_float p6, py_int p7 with
      | Some t, Some vax, Some vay, Some vaz, Some vgx, Some vgy, Some vgz, Some st =>
          Some (mkRec t vax vay vaz vgx vgy vgz st p8)
      | _, _, _, _, _, _, _, _ => None
      end
  | _ => None
  end.

(** The variables of the loop of [main]. *)
Record Loop : Type := mkLoop {
  buf : list (Rec F);
  in_write : bool
}.

(** [buf, in_write = [], False] *)
Definition start : Loop := mkLoop [] false.

(** What one pass of the loop prints. *)
Inductive Printed : Type :=
| SKIP
| PREDICT (digit : Z).

(** Lines 166-173 for one parsed row: the new loop variables, and the
    buffer handed to [pd.DataFrame(buf)] when the row closes a segment. *)
Definition on_record (st : Loop) (rec : Rec F) : Loop * option (list (Rec F)) :=
  if state rec =? 1 then
    if negb (in_write st) then (mkLoop [rec] true, None)
    else (mkLoop (buf st ++ [rec]) (in_write st), None)
  else
    if in_write st then (mkLoop (buf st) false, Some (buf st))
    else (st, None).

(** Lines 174-181: trimming, features and prediction of a closed segment. *)
Definition report (segment : list (Rec F)) : result Printed :=
  let df := DataFrame_of_records segment in
  dfw <- keep_writing_segment df ;;
  if empty dfw then ret SKIP
  else x <- trial_features dfw ;; ret (PREDICT (predict x)).

(** The loop over a finite run of parsed rows: the segments it closes, in
    order. *)
Fixpoint segments (st : Loop) (recs : list (Rec F)) : list (list (Rec F)) :=
  match recs with
  | [] => []
  | rec :: recs' =>
      match on_record st rec with
      | (st', Some seg) => seg :: segments st' recs'
      | (st', None) => segments st' recs'
      end
  end.

(** The loop of [main] (lines 160-181) over the lines read so far: what it
    has printed, or the exception that ended it. *)
Fixpoint main_loop (st : Loop) (lines : list string) : result (list Printed) :=
  match lines with
  | [] => ret []
  | line :: lines' =>
      if String.eqb line "" then main_loop st lines' else
      match parse_row line with
      | None => main_loop st lines'
      | Some rec =>
          match on_record st rec with
          | (st', Some seg) =>
              out <- report seg ;;
              outs <- main_loop st' lines' ;;
              ret (out :: outs)
          | (st', None) => main_loop st' lines'
          end
      end
  end.

End Stream.
End Features.

Arguments Loop F : clear implicits.

End Infer.

(* ================================================================= *)
(** ** train_svm_digits.py *)

Module Train.

Definition trim_ms : Z := 200.

Definition CHANNELS : list string := ["ax"; "ay"; "az"; "gx"; "gy"; "gz"]%string.

(** A file path: the directory it was found in and its final component
    ([p.name]). *)
Record Path : Type := mkPath {
  parent : string;
  name : string
}.

(** [digit_pat.match] at the start of [s], for
    [digit_pat = re.compile(r"digit_([0-9])_")]: the captured character. *)
Definition digit_pat_here (s : string) : option ascii :=
  match s with
  | String "d" (String "i" (String "g" (String "i" (String "t" (String "_"
      (String c (String "_" _))))))) => if is_digit c then Some c else None
  | _ => None
  end.

(** [digit_pat.search(s)]: the leftmost match. *)
Fixpoint digit_pat_search (s : string) : option ascii :=
  match digit_pat_here s with
  | Some c => Some c
  | None =>
      match s with
      | EmptyString => None
      | String _ s' => digit_pat_search s'
      end
  end.

(** [label_from_name], lines 30-33. *)
Definition label_from_name (p : Path) : result Z :=
  match digit_pat_search (name p) with
  | None => raise ValueError
  | Some c => ret (digit_value c)
  end.

(** [keep_writing_segment], train_svm_digits.py lines 35-52. *)
Definition keep_writing_segment {F : Type} (df : DataFrame F) : result (DataFrame F) :=
  if negb (has_column "state" df) then raise ValueError else
  let df := select (fun r => state r =? 1) df in
  if len df <? 8 then ret pd_DataFrame else
  if has_column "t_ms" df && is_monotonic_increasing (col_t_ms df) then
    t0 <- item (col_t_ms df) 0 ;;
    t1 <- item (col_t_ms df) (-1) ;;
    let left := t0 + trim_ms in
    let right := t1 - trim_ms in
    let df := select (fun r => (left <=? t_ms r) && (t_ms r <=? right)) df in
    if len df <? 8 then
      ret (if 4 <? len df then iloc (Some 2) (Some (-2)) df else df)
    else ret df
  else
    let k := Z.max 2 (len df / 20) in
    if 2 * k <? len df then ret (iloc (Some k) (Some (- k)) df)
    else ret df.

Section Features.
Context {F : Type} {A : Arith F}.

(** [feat_channel], train_svm_digits.py lines 54-66. *)
Definition feat_channel (x : list F) : result (list F) :=
  if size x =? 0 then ret (repeat (of_Z 0) 8) else
  let mean := np_mean x in
  let std := np_std x in
  let rms := fsqrt (np_mean (arr_mul x x)) in
  hi <- np_max x ;;
  lo <- np_min x ;;
  let rng := fsub hi lo in
  let med := np_median x in
  let mad := np_median (np_abs (map (fun v => fsub v med) x)) in
  let eng := np_sum (arr_mul x x) in
  let zc := zero_crossings x in
  let peaks := find_peaks (np_abs x) (fmul (np_std x) (of_Z 1)) in
  ret [mean; std; rms; rng; mad; eng; of_Z zc; of_Z (Z.of_nat (List.length peaks))].

(** [trial_features], train_svm_digits.py lines 68-90. *)
Definition trial_features (df : DataFrame F) : result (list F) :=
  if negb (forallb (fun c => has_column c df) CHANNELS) then raise KeyError else
  let ax := normalized (map (@ax F) (rows df)) in
  let ay := normalized (map (@ay F) (rows df)) in
  let az := normalized (map (@az F) (rows df)) in
  let gx := normalized (map (@gx F) (rows df)) in
  let gy := normalized (map (@gy F) (rows df)) in
  let gz := normalized (map (@gz F) (rows df)) in
  dur_s <- (if has_column "t_ms" df && is_monotonic_increasing (col_t_ms df) then
              t_last <- item (col_t_ms df) (-1) ;;
              t_first <- item (col_t_ms df) 0 ;;
              ret (fdiv (of_Z (t_last - t_first)) (of_Z 1000))
            else ret (of_Z 0)) ;;
  let a_path := np_sum (norm_rows ax ay az) in
  let g_path := np_sum (norm_rows gx gy gz) in
  let yaw_int := np_sum (np_abs gz) in
  f_ax <- feat_channel ax ;;
  f_ay <- feat_channel ay ;;
  f_az <- feat_channel az ;;
  f_gx <- feat_channel gx ;;
  f_gy <- feat_channel gy ;;
  f_gz <- feat_channel gz ;;
  ret (f_ax ++ f_ay ++ f_az ++ f_gx ++ f_gy ++ f_gz ++ [dur_s; a_path; g_path; yaw_int]).

(** The corpus being built: [X], [y] and [files]. *)
Definition Corpus : Type := (list (list F) * list Z * list Path)%type.

(** The loop of [load_dataset] (lines 94-102) over
    [sorted(data_dir.glob("digit_*.csv"))]; each path comes with what
    [pd.read_csv] gives for it ([None]: it raises). *)
Fixpoint load_loop (listing : list (Path * option (DataFrame F))) (acc : Corpus)
  : result Corpus :=
  match listing with
  | [] => ret acc
  | (fp, csv) :: listing' =>
      match csv with
      | None => load_loop listing' acc
      | Some df =>
          dfw <- keep_writing_segment df ;;
          if empty dfw then load_loop listing' acc else
          feats <- trial_features dfw ;;
          lab <- label_from_name fp ;;
          let '(X, y, files) := acc in
          load_loop listing' (X ++ [feats], y ++ [lab], files ++ [fp])
      end
  end.

(** [load_dataset], lines 92-105. *)
Definition load_dataset (listing : list (Path * option (DataFrame F))) : result Corpus :=
  acc <- load_loop listing ([], [], []) ;;
  match fst (fst acc) with
  | [] => raise RuntimeError
  | _ :: _ => ret acc
  end.

End Features.
End Train.

(* ================================================================= *)
(** ** write.py *)

Module Write.

(** [OUT = Path("imu_digits")] *)
Definition OUT : string := "imu_digits".

Definition header : list string :=
  ["t_ms"; "ax"; "ay"; "az"; "gx"; "gy"; "gz"; "state"; "label"]%string.

(** [read_line], lines 23-27, on what [ser.readline().decode(...)] gives
    ([None]: it raises). *)
Definition read_line (raw : option string) : string :=
  match raw with
  | Some s => strip s
  | None => EmptyString
  end.

(** The rest of [s] after the prefix [p], when [s] starts with [p]. *)
Fixpoint after_prefix (p s : string) : option string :=
  match p with
  | EmptyString => Some s
  | String a p' =>
      match s with
      | String b s' => if Ascii.eqb a b then after_prefix p' s' else None
      | EmptyString => None
      end
  end.

(** [re.compile(word + r"([0-9]),(\d+)").match(line)]: group 1 when the
    line starts with the word, one digit, a comma and at least one digit. *)
Definition marker_match (word line : string) : option string :=
  match after_prefix word line with
  | Some (String c (String "," (String d _))) =>
      if is_digit c && is_digit d then Some (String c EmptyString) else None
  | _ => None
  end.

(** [start_re.match(line)] and [stop_re.match(line)], by their group 1. *)
Definition start_re_match (line : string) : option string :=
  marker_match "# START," line.

Definition stop_re_match (line : string) : option string :=
  marker_match "# STOP," line.

(** The loop of [wait_for_segment], lines 33-63, over the reads the port
    still has: the rows returned and the reads left, or [None] when the
    reads end before the function returns. *)
Fixpoint wait_loop (target_label : string) (buf : list (list string))
  (in_seg : bool) (reads : list (option string))
  : option (list (list string) * list (option string)) :=
  match reads with
  | [] => None
  | raw :: reads' =>
      let line := read_line raw in
      if String.eqb line "" then wait_loop target_label buf in_seg reads' else
      if String.prefix "# START" line then
        match start_re_match line with
        | Some g =>
            if String.eqb g target_label then wait_loop target_label [] true reads'
            else wait_loop target_label buf in_seg reads'
        | None => wait_loop target_label buf in_seg reads'
        end
      else if String.prefix "# STOP" line then
        match stop_re_match line with
        | Some g =>
            if String.eqb g target_label && in_seg then Some (buf, reads')
            else wait_loop target_label buf in_seg reads'
        | None => wait_loop target_label buf in_seg reads'
        end
      else if String.prefix "#" line then wait_loop target_label buf in_seg reads'
      else
        let parts := split "," line in
        if (List.length parts =? 9)%nat then
          if in_seg then wait_loop target_label (buf ++ [parts]) in_seg reads'
          else wait_loop target_label buf in_seg reads'
        else wait_loop target_label buf in_seg reads'
  end.

(** [wait_for_segment], lines 29-63. *)
Definition wait_for_segment (target_label : string) (reads : list (option string))
  : option (list (list string) * list (option string)) :=
  wait_loop target_label [] false reads.

(** [str.lower] on one character with a code point below 256. *)
Definition lower_char (c : ascii) : ascii :=
  let n := nat_of_ascii c in
  if ((65 <=? n) && (n <=? 90)
      || (192 <=? n) && (n <=? 222) && negb (n =? 215))%nat
  then ascii_of_nat (n + 32)
  else c.

Fixpoint lower (s : string) : string :=
  match s with
  | EmptyString => EmptyString
  | String c s' => String (lower_char c) (lower s')
  end.

(** The test of line 77: [len(lab) != 1 or lab < '0' or lab > '9']. *)
Definition rejected (lab : string) : bool :=
  negb (String.length lab =? 1)%nat || String.ltb lab "0" || String.ltb "9" lab.

(** [str(n)] for an integer. *)
Definition str (n : Z) : string := NilZero.string_of_int (Z.to_int n).

(** [OUT / f"digit_{lab}_{ts}.csv"] *)
Definition fname (lab : string) (ts : Z) : Train.Path :=
  Train.mkPath OUT ("digit_" ++ lab ++ "_" ++ str ts ++ ".csv").

(** A file written by lines 94-97: its path and the rows handed to the
    csv writer, the header first. *)
Record Saved : Type := mkSaved {
  path : Train.Path;
  written : list (list string)
}.

(** The loop of [main], lines 73-99.  Each entry of [typed] is what
    [input] returns on one pass, with the value of [int(time.time()*1000)]
    on that pass; [reads] is what the port delivers.  The result lists the
    files saved up to the point where the loop ends, runs out of typed
    input or waits for a segment the reads do not complete. *)
Fixpoint main_loop (typed : list (string * Z)) (reads : list (option string))
  : list Saved :=
  match typed with
  | [] => []
  | (entered, ts) :: typed' =>
      let lab := strip entered in
      if String.eqb (lower lab) "q" then []
      else if rejected lab then main_loop typed' reads
      else
        match wait_for_segment lab reads with
        | None => []
        | Some (rows, reads') =>
            match rows with
            | [] => main_loop typed' reads'
            | _ :: _ => mkSaved (fname lab ts) (header :: rows) :: main_loop typed' reads'
            end
        end
  end.

End Write.

(* ================================================================= *)
(** ** Vocabulary of the properties *)

(** A row of a writing span. *)
Definition active {F : Type} (r : Rec F) : bool := state r =? 1.

(** The rows of a frame that [df[df["state"] == 1]] keeps. *)
Definition writing_rows {F : Type} (df : DataFrame F) : list (Rec F) :=
  filter active (rows df).

(** A row whose timestamp lies in [lo .. hi]. *)
Definition in_window {F : Type} (lo hi : Z) (r : Rec F) : bool :=
  (lo <=? t_ms r) && (t_ms r <=? hi).

(** First and last timestamp of a run of rows. *)
Definition first_t {F : Type} (d : list (Rec F)) : Z := hd 0 (map (@t_ms F) d).

Definition last_t {F : Type} (d : list (Rec F)) : Z := last (map (@t_ms F) d) 0.

(** [out] is [l] without its first [k] and its last [k] elements. *)
Definition DroppedEnds {T : Type} (k : Z) (l out : list T) : Prop :=
  exists pre post,
    Z.of_nat (List.length pre) = k /\ Z.of_nat (List.length post) = k /\
    l = pre ++ out ++ post.

(** [out] is one consecutive run of [l]. *)
Definition Contiguous {T : Type} (l out : list T) : Prop :=
  exists pre post, l = pre ++ out ++ post.

(** Each value is larger than the one before it. *)
Fixpoint is_strictly_increasing (l : list Z) : bool :=
  match l with
  | [] => true
  | a :: l' =>
      match l' with
      | [] => true
      | b :: _ => (a <? b) && is_strictly_increasing l'
      end
  end.

(** Sample rows for the examples: a writing row at time [t], all channels 0. *)
Definition still (t : Z) : Rec float :=
  mkRec t 0%float 0%float 0%float 0%float 0%float 0%float 1 "".

Definition frame_at (ts : list Z) : DataFrame float :=
  DataFrame_of_records (map still ts).

Section SegmenterVocabulary.
Context {F : Type}.

(** The frame [keep_writing_segment] returns when the [state] column is
    there, with the two timestamp look-ups resolved. *)
Definition trimmed (df : DataFrame F) : DataFrame F :=
  let d := select active df in
  if len d <? 8 then pd_DataFrame else
  if has_column "t_ms" df && is_monotonic_increasing (col_t_ms d) then
    let w := select (in_window (first_t (rows d) + 200) (last_t (rows d) - 200)) d in
    if len w <? 8 then (if 4 <? len w then iloc (Some 2) (Some (-2)) w else w)
    else w
  else
    let k := Z.max 2 (len d / 20) in
    if 2 * k <? len d then iloc (Some k) (Some (- k)) d else d.

End SegmenterVocabulary.

Section ControllerVocabulary.
Context {F : Type}.

(** A row with [state == 1]. *)
Definition writing (r : Rec F) : Prop := state r = 1.

(** The same row with another state flag. *)
Definition with_state (s : Z) (r : Rec F) : Rec F :=
  mkRec (t_ms r) (ax r) (ay r) (az r) (gx r) (gy r) (gz r) s (label r).

(** [Runs recs segs]: read from the idle state, the rows [recs] consist of
    idle rows and of writing runs, and [segs] are the runs that a
    non-writing row closes, in order.  A run still open at the end of
    [recs] is not among them. *)
Inductive Runs : list (Rec F) -> list (list (Rec F)) -> Prop :=
| Runs_nil : Runs [] []
| Runs_idle r l segs :
    state r <> 1 -> Runs l segs -> Runs (r :: l) segs
| Runs_open seg :
    seg <> [] -> Forall writing seg -> Runs seg []
| Runs_closed seg z l segs :
    seg <> [] -> Forall writing seg -> state z <> 1 -> Runs l segs ->
    Runs (seg ++ z :: l) (seg :: segs).

(** The number of places where a writing row is followed by a row that is
    not one; [prev] tells whether the row before the list was writing. *)
Fixpoint falling_edges (prev : bool) (recs : list (Rec F)) : nat :=
  match recs with
  | [] => 0
  | r :: l =>
      (if prev && negb (active r) then 1 else 0) + falling_edges (active r) l
  end.

End ControllerVocabulary.

Section StreamVocabulary.
Context {F : Type} {A : Arith F}.
Variable py_int : string -> option Z.
Variable py_float : string -> option F.
Variable predict : list F -> Z.

(** The rows the loop gets out of the lines read: empty lines and lines
    that do not parse are passed over. *)
Fixpoint parsed_rows (lines : list string) : list (Rec F) :=
  match lines with
  | [] => []
  | line :: lines' =>
      if String.eqb line "" then parsed_rows lines' else
      match Infer.parse_row py_int py_float line with
      | Some rec => rec :: parsed_rows lines'
      | None => parsed_rows lines'
      end
  end.

(** One report for each segment, in order, up to the first exception. *)
Fixpoint reports (segs : list (list (Rec F))) : result (list Infer.Printed) :=
  match segs with
  | [] => ret []
  | seg :: segs' =>
      out <- Infer.report predict seg ;;
      outs <- reports segs' ;;
      ret (out :: outs)
  end.

End StreamVocabulary.

Section FeatureVocabulary.
Context {F : Type} {A : Arith F}.

(** The eight statistics of one channel, in the order of the vector; the
    peak count is the one the script at hand uses. *)
Definition stat_mean (x : list F) : F := np_mean x.

Definition stat_std (x : list F) : F := np_std x.

Definition stat_rms (x : list F) : F :=
  fsqrt (np_mean (map (fun v => fmul v v) x)).

Definition stat_range (x : list F) : F :=
  fsub (fold_left maximum (tl x) (hd (of_Z 0) x))
       (fold_left minimum (tl x) (hd (of_Z 0) x)).

Definition stat_mad (x : list F) : F :=
  np_median (np_abs (map (fun v => fsub v (np_median x)) x)).

Definition stat_energy (x : list F) : F :=
  np_sum (map (fun v => fmul v v) x).

Definition stats (peak_count : list F -> Z) (x : list F) : list F :=
  [stat_mean x; stat_std x; stat_rms x; stat_range x; stat_mad x;
   stat_energy x; of_Z (zero_crossings x); of_Z (peak_count x)].

(** The peak count of the training script. *)
Definition scipy_peaks (x : list F) : Z :=
  Z.of_nat (List.length (find_peaks (np_abs x) (fmul (np_std x) (of_Z 1)))).







End FeatureVocabulary.

(** *** Sample data *)

(** A flat-topped bump: the plateau of height 2 is one peak for
    [find_peaks] and two peaks for the inference-time count. *)
Definition plateau : list float := [0; 2; 2; 0]%float.




(** A writing row at time [t] with [ax = 0.1] and [ay = 9.81]. *)
Definition steady (t : Z) : Rec float :=
  mkRec t 0x1.999999999999ap-4%float 0x1.39eb851eb851fp+3%float
        0%float 0%float 0%float 0%float 1 "".

(** Stand-ins for [int] and [float] in the examples: an optional minus sign
    and decimal digits. *)
Fixpoint digits_value (acc : Z) (s : string) : option Z :=
  match s with
  | EmptyString => Some acc
  | String c s' =>
      if is_digit c then digits_value (10 * acc + digit_value c) s' else None
  end.

Definition decimal_int (s : string) : option Z :=
  match s with
  | EmptyString => None
  | String "-" (String c s') => option_map Z.opp (digits_value 0 (String c s'))
  | _ => digits_value 0 s
  end.

Definition decimal_float (s : string) : option float :=
  option_map (@of_Z float float64) (decimal_int s).

(** The names [data_dir.glob("digit_*.csv")] yields: they begin with
    [digit_] and end with [.csv], the two not overlapping. *)
Definition matches_glob (s : string) : bool :=
  String.prefix "digit_" s
  && String.eqb (substring (String.length s - 4) 4 s) ".csv"
  && (10 <=? String.length s)%nat.

(** A listing of two files with the same 17 rows, 50 ms apart: the first
    is labelled 3, the second matches the glob pattern and has no label. *)
Definition sample_rows : DataFrame float :=
  frame_at [0; 50; 100; 150; 200; 250; 300; 350; 400; 450;
            500; 550; 600; 650; 700; 750; 800].

Definition sample_listing : list (Train.Path * option (DataFrame float)) :=
  [(Train.mkPath "4_seconds" "digit_3_1700000000.csv", Some sample_rows);
   (Train.mkPath "4_seconds" "digit_x_1700000001.csv", Some sample_rows)].

(** *** Vocabulary of the further properties *)

Section LoopVocabulary.
Context {F : Type}.

(** The loop variables of infer.py's [main] after a run of parsed rows. *)
Definition loop_state (st : Infer.Loop F) (recs : list (Rec F)) : Infer.Loop F :=
  fold_left (fun s rec => fst (Infer.on_record s rec)) recs st.

(** The rows of a segment that is open (not yet closed by a non-writing
    row). *)
Definition open_rows (st : Infer.Loop F) : list (Rec F) :=
  if Infer.in_write st then Infer.buf st else [].

End LoopVocabulary.

(** The number of occurrences of a character in a string. *)
Fixpoint count_char (c : ascii) (s : string) : nat :=
  match s with
  | EmptyString => 0
  | String a s' => (if Ascii.eqb a c then 1 else 0) + count_char c s'
  end.

(** A string of whitespace characters only. *)
Fixpoint all_space (s : string) : bool :=
  match s with
  | EmptyString => true
  | String c s' => is_space c && all_space s'
  end.

(** [sub] occurs in [s], between [pre] and [post]. *)
Definition occurs_in (sub s : string) : Prop :=
  exists pre post : string, s = (pre ++ sub ++ post)%string.

(** A file the loop of [load_dataset] passes over: it does not read, or
    its trimmed segment is empty. *)
Definition passed_over {F : Type} (entry : Train.Path * option (DataFrame F)) : bool :=
  match snd entry with
  | None => true
  | Some df =>
      match Train.keep_writing_segment df with
      | inr dfw => empty dfw
      | inl _ => false
      end
  end.

(** The data rows [wait_for_segment] takes from reads made while a segment
    is open: the stripped lines that are not empty, do not start with [#]
    and have 9 comma-separated fields, cut at the commas. *)
Definition data_rows (reads : list (option string)) : list (list string) :=
  flat_map
    (fun raw =>
       let line := Write.read_line raw in
       if String.eqb line "" || String.prefix "#" line then []
       else if (List.length (split "," line) =? 9)%nat then [split "," line]
       else [])
    reads.

(** A read that is neither a START nor a STOP marker for the label. *)
Definition no_marker_for (target_label : string) (raw : option string) : bool :=
  negb (match Write.start_re_match (Write.read_line raw) with
        | Some g => String.eqb g target_label
        | None => false
        end)
  && negb (match Write.stop_re_match (Write.read_line raw) with
           | Some g => String.eqb g target_label
           | None => false
           end).

(** A read that is no START marker for the label. *)
Definition no_start_for (target_label : string) (raw : option string) : bool :=
  negb (match Write.start_re_match (Write.read_line raw) with
        | Some g => String.eqb g target_label
        | None => false
        end).

(** *** Further sample data *)

(** Writing and idle rows mixed: the writing rows are 17 rows 50 ms apart. *)
Definition mixed_rows : DataFrame float :=
  DataFrame_of_records
    (with_state 0 (still 0) ::
     map still [50; 100; 150; 200; 250; 300; 350; 400; 450] ++
     with_state 0 (still 475) ::
     map still [500; 550; 600; 650; 700; 750; 800; 850]).

(** Twelve writing rows whose timestamps go backwards once. *)
Definition unordered_rows : DataFrame float :=
  frame_at [0; 10; 20; 30; 25; 40; 50; 60; 70; 80; 90; 100].

(** A listing with two usable files, one that does not read and one that
    is too short. *)
Definition sample_corpus_listing : list (Train.Path * option (DataFrame float)) :=
  [(Train.mkPath "4_seconds" "digit_3_1700000000.csv", Some sample_rows);
   (Train.mkPath "4_seconds" "digit_9_1700000002.csv", None);
   (Train.mkPath "4_seconds" "digit_7_1700000003.csv", Some (frame_at [0; 1]));
   (Train.mkPath "4_seconds" "digit_5_1700000005.csv", Some sample_rows)].


(** Case analysis on the eight bits of a character in a hypothesis. *)
Ltac char_cases a H :=
  destruct a as [[] [] [] [] [] [] [] []]; try discriminate H.

(* ================================================================= *)
(** ** Slices, indexing and sorted columns *)

Section ListFacts.
Context {T : Type}.

Lemma slice_contiguous (a b : option Z) (l : list T) :
  Contiguous l (slice a b l).
Proof.
  unfold Contiguous, slice.
  set (i := Z.to_nat _). set (m := Z.to_nat _).
  exists (firstn m l), (skipn i (skipn m l)).
  rewrite (firstn_skipn i (skipn m l)).
  now rewrite firstn_skipn.
Qed.

Lemma slice_drops_ends (k : Z) (l : list T) :
  0 < k -> 2 * k <= Z.of_nat (List.length l) ->
  DroppedEnds k l (slice (Some k) (Some (- k)) l).
Proof.
  intros Hk Hl. unfold DroppedEnds, slice, slice_bound.
  set (n := Z.of_nat (List.length l)) in *.
  assert (Hn : (- k <? 0) = true) by (apply Z.ltb_lt; lia).
  assert (Hp : (k <? 0) = false) by (apply Z.ltb_ge; lia).
  rewrite Hn, Hp.
  replace (Z.max 0 (Z.min n k)) with k by lia.
  replace (Z.max 0 (Z.min n (- k + n))) with (n - k) by lia.
  exists (firstn (Z.to_nat k) l),
         (skipn (Z.to_nat (n - k - k)) (skipn (Z.to_nat k) l)).
  repeat split.
  - rewrite length_firstn. subst n. lia.
  - rewrite !length_skipn. subst n. lia.
  - rewrite (firstn_skipn (Z.to_nat (n - k - k)) (skipn (Z.to_nat k) l)).
    now rewrite firstn_skipn.
Qed.

Lemma item_first (l : list T) (d : T) :
  l <> [] -> item l 0 = inr (hd d l).
Proof.
  destruct l as [|a l]; [congruence|]. intros _.
  unfold item. cbn [List.length hd].
  replace (0 <? 0) with false by reflexivity. cbn [orb].
  replace (Z.of_nat (S (List.length l)) <=? 0) with false
    by (symmetry; apply Z.leb_gt; lia).
  reflexivity.
Qed.

Lemma item_last (l : list T) (d : T) :
  l <> [] -> item l (-1) = inr (last l d).
Proof.
  intros Hl. unfold item.
  replace (-1 <? 0) with true by reflexivity.
  set (n := Z.of_nat (List.length l)).
  assert (Hn : 0 < n) by (destruct l; [congruence | subst n; cbn [List.length]; lia]).
  replace (-1 + n <? 0) with false by (symmetry; apply Z.ltb_ge; lia).
  replace (n <=? -1 + n) with false by (symmetry; apply Z.leb_gt; lia).
  cbn [orb].
  destruct (exists_last Hl) as (l' & a & ->).
  rewrite last_last.
  replace (Z.to_nat (-1 + n)) with (List.length l')
    by (subst n; rewrite length_app; cbn [List.length]; lia).
  rewrite nth_error_app2 by lia. rewrite Nat.sub_diag. reflexivity.
Qed.

Lemma filter_length_le (p : T -> bool) (l : list T) :
  (List.length (filter p l) <= List.length l)%nat.
Proof.
  induction l as [|a l IH]; cbn; [lia|]. destruct (p a); cbn; lia.
Qed.

Lemma filter_all (p : T -> bool) (l : list T) :
  Forall (fun x => p x = true) l -> filter p l = l.
Proof.
  induction 1 as [|a l Ha _ IH]; cbn; [reflexivity|]. now rewrite Ha, IH.
Qed.

Lemma filter_none (p : T -> bool) (l : list T) :
  Forall (fun x => p x = false) l -> filter p l = [].
Proof.
  induction 1 as [|a l Ha _ IH]; cbn; [reflexivity|]. now rewrite Ha.
Qed.

Lemma contiguous_trans (l m out : list T) :
  Contiguous l m -> Contiguous m out -> Contiguous l out.
Proof.
  intros (p1 & q1 & ->) (p2 & q2 & ->).
  exists (p1 ++ p2), (q2 ++ q1). now rewrite <- !app_assoc.
Qed.

Lemma contiguous_refl (l : list T) : Contiguous l l.
Proof. exists [], []. now rewrite app_nil_r. Qed.

Lemma contiguous_nil (l : list T) : Contiguous l [].
Proof. exists [], l. reflexivity. Qed.

End ListFacts.

Lemma monotonic_cons (a : Z) (l : list Z) :
  is_monotonic_increasing (a :: l) = true ->
  Forall (fun b => a <= b) l /\ is_monotonic_increasing l = true.
Proof.
  revert a. induction l as [|b l IH]; intros a H.
  - split; [constructor | reflexivity].
  - cbn [is_monotonic_increasing] in H.
    apply andb_prop in H as [Hab Hl]. apply Z.leb_le in Hab.
    split; [|exact Hl].
    constructor; [exact Hab|].
    destruct (IH b Hl) as [Hall _].
    eapply Forall_impl; [|exact Hall]. cbn. intros; lia.
Qed.

Lemma strictly_increasing_monotonic (l : list Z) :
  is_strictly_increasing l = true -> is_monotonic_increasing l = true.
Proof.
  induction l as [|a [|b l] IH]; cbn; try reflexivity.
  intros H. apply andb_prop in H as [Hab Hl].
  apply Z.ltb_lt in Hab. apply andb_true_intro. split.
  - apply Z.leb_le. lia.
  - apply IH. exact Hl.
Qed.

Section Windows.
Context {F : Type}.

(** On rows in timestamp order that all lie at or after [lo], the rows of
    the window are the leading ones. *)
Lemma window_prefix (lo hi : Z) (d : list (Rec F)) :
  is_monotonic_increasing (map (@t_ms F) d) = true ->
  Forall (fun r => lo <= t_ms r) d ->
  exists post, d = filter (in_window lo hi) d ++ post.
Proof.
  induction d as [|a d IH]; intros Hm Hlo.
  - exists []. reflexivity.
  - cbn [map] in Hm. apply monotonic_cons in Hm as [Hall Hm].
    inversion Hlo as [|? ? Ha Hd]; subst.
    cbn [filter]. unfold in_window at 1.
    destruct (Z.leb_spec lo (t_ms a)) as [_|]; [|lia]. cbn [andb].
    destruct (Z.leb_spec (t_ms a) hi) as [Hhi|Hhi].
    + destruct (IH Hm Hd) as (post & Hpost).
      exists post. cbn. now rewrite <- Hpost.
    + exists (a :: d). rewrite filter_none; [reflexivity|].
      rewrite Forall_map in Hall.
      eapply Forall_impl; [|exact Hall]. cbn. intros r Hr.
      unfold in_window. destruct (Z.leb_spec (t_ms r) hi); [lia|].
      now rewrite andb_false_r.
Qed.

(** On rows in timestamp order, the rows of a time window are consecutive. *)
Lemma window_contiguous (lo hi : Z) (d : list (Rec F)) :
  is_monotonic_increasing (map (@t_ms F) d) = true ->
  Contiguous d (filter (in_window lo hi) d).
Proof.
  induction d as [|a d IH]; intros Hm.
  - exists [], []. reflexivity.
  - pose proof Hm as Hm0.
    cbn [map] in Hm. apply monotonic_cons in Hm as [Hall Hm].
    destruct (Z.leb_spec lo (t_ms a)) as [Hlo|Hlo].
    + destruct (@window_prefix lo hi (a :: d) Hm0) as (post & Hpost).
      * constructor; [exact Hlo|].
        rewrite Forall_map in Hall.
        eapply Forall_impl; [|exact Hall]. cbn. intros; lia.
      * exists [], post. exact Hpost.
    + destruct (IH Hm) as (pre & post & Hd).
      exists (a :: pre), post. cbn [filter]. unfold in_window at 1.
      destruct (Z.leb_spec lo (t_ms a)); [lia|]. cbn [andb].
      cbn. now rewrite <- Hd.
Qed.

End Windows.

(* ================================================================= *)
(** ** The segmenter *)

Section Segmenter.
Context {F : Type}.

Lemma infer_keep_writing_segment_trimmed (df : DataFrame F) :
  has_column "state" df = true ->
  Infer.keep_writing_segment df = inr (trimmed df).
Proof.
  intros Hs. unfold Infer.keep_writing_segment, trimmed. rewrite Hs. cbn [negb].
  fold (@active F). set (d := select active df).
  destruct (len d <? 8) eqn:Hlen; [reflexivity|].
  change (has_column "t_ms" d) with (has_column "t_ms" df).
  destruct (has_column "t_ms" df && is_monotonic_increasing (col_t_ms d)); [|
    destruct (2 * Z.max 2 (len d / 20) <? len d); reflexivity].
  assert (Hne : col_t_ms d <> []).
  { apply Z.ltb_ge in Hlen. unfold len in Hlen. unfold col_t_ms.
    destruct (rows d); [cbn in Hlen; lia | discriminate]. }
  rewrite (item_first 0 Hne), (item_last 0 Hne). cbn [bind].
  unfold Infer.trim_ms, first_t, last_t, col_t_ms. fold (@in_window F).
  set (w := select _ d).
  destruct (len w <? 8); reflexivity.
Qed.

Lemma train_keep_writing_segment_trimmed (df : DataFrame F) :
  has_column "state" df = true ->
  Train.keep_writing_segment df = inr (trimmed df).
Proof.
  intros Hs. rewrite <- (@infer_keep_writing_segment_trimmed df Hs).
  unfold Train.keep_writing_segment, Infer.keep_writing_segment.
  rewrite Hs. reflexivity.
Qed.

Lemma trimmed_short (df : DataFrame F) :
  Z.of_nat (List.length (writing_rows df)) < 8 -> trimmed df = pd_DataFrame.
Proof.
  intros H. unfold trimmed.
  replace (len (select active df) <? 8) with true; [reflexivity|].
  symmetry. apply Z.ltb_lt. exact H.
Qed.

Lemma trimmed_contiguous (df : DataFrame F) :
  Contiguous (writing_rows df) (rows (trimmed df)).
Proof.
  unfold trimmed. set (d := select active df).
  change (writing_rows df) with (rows d).
  destruct (len d <? 8); [apply contiguous_nil|].
  destruct (has_column "t_ms" df && is_monotonic_increasing (col_t_ms d)) eqn:Ht.
  - apply andb_prop in Ht as [_ Hm].
    set (w := select _ d).
    assert (Hw : Contiguous (rows d) (rows w))
      by (apply window_contiguous; exact Hm).
    destruct (len w <? 8); [|exact Hw].
    destruct (4 <? len w); [|exact Hw].
    eapply contiguous_trans; [exact Hw|]. apply slice_contiguous.
  - destruct (2 * Z.max 2 (len d / 20) <? len d).
    + apply slice_contiguous.
    + apply contiguous_refl.
Qed.

End Segmenter.

Lemma writing_rows_length_le {F : Type} (df : DataFrame F) :
  Z.of_nat (List.length (writing_rows df)) <= len df.
Proof.
  unfold len, writing_rows. pose proof (filter_length_le active (rows df)). lia.
Qed.

(** A frame of fewer than 8 rows has fewer than 8 writing rows, and is
    turned into the empty frame. *)
Lemma keep_writing_segment_few_rows {F : Type} (df : DataFrame F) :
  has_column "state" df = true ->
  len df < 8 ->
  Infer.keep_writing_segment df = inr pd_DataFrame /\
  Train.keep_writing_segment df = inr pd_DataFrame.
Proof.
  intros Hs Hn. pose proof (writing_rows_length_le df) as Hle.
  rewrite (infer_keep_writing_segment_trimmed df Hs).
  rewrite (train_keep_writing_segment_trimmed df Hs).
  rewrite (trimmed_short df) by lia. split; reflexivity.
Qed.

(** C1 (amended): on a frame with a [state] column, fewer than 8 rows with
    [state == 1] (so, in particular, fewer than 8 rows) give the empty
    frame, in both scripts.  The 8-row check is made before trimming only:
    nothing is promised about the length of a non-empty result. *)
Theorem keep_writing_segment_rejects_short {F : Type} (df : DataFrame F) :
  has_column "state" df = true ->
  Z.of_nat (List.length (writing_rows df)) < 8 ->
  Infer.keep_writing_segment df = inr pd_DataFrame /\
  Train.keep_writing_segment df = inr pd_DataFrame /\
  empty (@pd_DataFrame F) = true.
Proof.
  intros Hs Hn.
  rewrite (infer_keep_writing_segment_trimmed df Hs).
  rewrite (train_keep_writing_segment_trimmed df Hs).
  rewrite (trimmed_short df Hn).
  repeat split.
Qed.

Lemma keep_writing_segment_rejects_short_witness :
  Infer.keep_writing_segment (frame_at [0; 100; 200]) = inr pd_DataFrame /\
  Train.keep_writing_segment (frame_at [0; 100; 200]) = inr pd_DataFrame /\
  empty (@pd_DataFrame float) = true.
Proof.
  apply (@keep_writing_segment_rejects_short float (frame_at [0; 100; 200])).
  - reflexivity.
  - vm_compute. reflexivity.
Defined.

(** C1 fails as stated: eight writing rows 100 ms apart, with strictly
    increasing timestamps, are trimmed to the four rows of the window
    [200 .. 500]; four rows are not more than 4, so they are returned as
    they are: a non-empty result of fewer than 8 rows. *)
Lemma keep_writing_segment_short_result :
  Infer.keep_writing_segment (frame_at [0; 100; 200; 300; 400; 500; 600; 700])
    = inr (mkDF (record_keys) (map still [200; 300; 400; 500])) /\
  Train.keep_writing_segment (frame_at [0; 100; 200; 300; 400; 500; 600; 700])
    = inr (mkDF (record_keys) (map still [200; 300; 400; 500])) /\
  empty (mkDF (record_keys) (map still [200; 300; 400; 500])) = false /\
  len (mkDF (record_keys) (map still [200; 300; 400; 500])) = 4.
Proof. repeat split; vm_compute; reflexivity. Qed.

(** C3 (amended): on a frame with a [state] column and at least 8 writing
    rows, both scripts return a frame with the same columns whose rows are:
    when the [t_ms] column is there and non-decreasing (equal neighbouring
    timestamps included), the rows with timestamp in [t0+200 .. t1-200],
    less 2 rows at each end when fewer than 8 but more than 4 are left;
    otherwise the writing rows less [k = max(2, n // 20)] rows at each end
    when [n > 2*k], and all of them when not. *)
Theorem keep_writing_segment_algorithm {F : Type} (df : DataFrame F) :
  has_column "state" df = true ->
  8 <= Z.of_nat (List.length (writing_rows df)) ->
  exists out,
    Infer.keep_writing_segment df = inr out /\
    Train.keep_writing_segment df = inr out /\
    columns out = columns df /\
    let d := writing_rows df in
    let n := Z.of_nat (List.length d) in
    if has_column "t_ms" df && is_monotonic_increasing (map (@t_ms F) d) then
      let w := filter (in_window (first_t d + 200) (last_t d - 200)) d in
      let m := Z.of_nat (List.length w) in
      if m <? 8 then
        if 4 <? m then DroppedEnds 2 w (rows out) else rows out = w
      else rows out = w
    else
      let k := Z.max 2 (n / 20) in
      if 2 * k <? n then DroppedEnds k d (rows out) else rows out = d.
Proof.
  intros Hs Hn. exists (trimmed df).
  split; [apply infer_keep_writing_segment_trimmed; exact Hs|].
  split; [apply train_keep_writing_segment_trimmed; exact Hs|].
  unfold trimmed, len, col_t_ms, writing_rows in *. cbn [rows select].
  replace (Z.of_nat (List.length (filter active (rows df))) <? 8) with false
    by (symmetry; apply Z.ltb_ge; lia).
  set (d := filter active (rows df)) in *.
  destruct (has_column "t_ms" df && is_monotonic_increasing (map (@t_ms F) d)).
  - set (w := filter _ d).
    destruct (Z.ltb_spec (Z.of_nat (List.length w)) 8) as [Hw|Hw];
      [|split; reflexivity].
    destruct (Z.ltb_spec 4 (Z.of_nat (List.length w))) as [Hw4|Hw4];
      [|split; reflexivity].
    split; [reflexivity|]. cbn [rows iloc select]. fold d. fold w.
    apply slice_drops_ends; lia.
  - set (k := Z.max 2 _).
    assert (Hk2 : 2 <= k) by apply Z.le_max_l.
    destruct (Z.ltb_spec (2 * k) (Z.of_nat (List.length d))) as [Hk|Hk];
      [|split; reflexivity].
    split; [reflexivity|]. cbn [rows iloc select]. fold d.
    apply slice_drops_ends; lia.
Qed.

Lemma keep_writing_segment_algorithm_witness :
  8 <= Z.of_nat (List.length
         (writing_rows (frame_at [0; 100; 200; 300; 400; 500; 600; 700]))) /\
  exists out,
    Infer.keep_writing_segment (frame_at [0; 100; 200; 300; 400; 500; 600; 700])
      = inr out /\
    Train.keep_writing_segment (frame_at [0; 100; 200; 300; 400; 500; 600; 700])
      = inr out /\
    columns out = record_keys /\
    rows out = map still [200; 300; 400; 500].
Proof.
  assert (Hn : 8 <= Z.of_nat (List.length
            (writing_rows (frame_at [0; 100; 200; 300; 400; 500; 600; 700]))))
    by (vm_compute; discriminate).
  split; [exact Hn|].
  destruct (@keep_writing_segment_algorithm float
              (frame_at [0; 100; 200; 300; 400; 500; 600; 700]) eq_refl Hn)
    as (out & Hi & Ht & Hc & Hr).
  exists out. split; [exact Hi|]. split; [exact Ht|]. split; [exact Hc|].
  exact Hr.
Defined.

(** C3 fails as stated: eight writing rows that all carry the timestamp 0
    do not have strictly increasing timestamps, and [8 > 2 * max(2, 8 // 20)],
    so the claim has 2 rows dropped at each end; the timestamps are
    non-decreasing, so the code trims by time and returns no row. *)
Lemma keep_writing_segment_equal_timestamps :
  is_strictly_increasing (col_t_ms (frame_at [0; 0; 0; 0; 0; 0; 0; 0])) = false /\
  2 * Z.max 2 (len (frame_at [0; 0; 0; 0; 0; 0; 0; 0]) / 20)
    < len (frame_at [0; 0; 0; 0; 0; 0; 0; 0]) /\
  Infer.keep_writing_segment (frame_at [0; 0; 0; 0; 0; 0; 0; 0])
    = inr (mkDF (record_keys) []) /\
  Train.keep_writing_segment (frame_at [0; 0; 0; 0; 0; 0; 0; 0])
    = inr (mkDF (record_keys) []) /\
  ~ DroppedEnds (Z.max 2 (len (frame_at [0; 0; 0; 0; 0; 0; 0; 0]) / 20))
      (writing_rows (frame_at [0; 0; 0; 0; 0; 0; 0; 0])) [].
Proof.
  repeat split; try (vm_compute; reflexivity).
  intros (pre & post & Hpre & Hpost & H).
  apply (f_equal (@List.length _)) in H.
  rewrite !length_app in H.
  change (List.length (writing_rows (frame_at [0; 0; 0; 0; 0; 0; 0; 0])))
    with 8%nat in H.
  change (Z.max 2 (len (frame_at [0; 0; 0; 0; 0; 0; 0; 0]) / 20)) with 2 in *.
  cbn [List.length] in H. lia.
Qed.

(** C10: on a frame with a [state] column whose rows all have [state == 1],
    both scripts return a frame whose rows are one consecutive run of the
    rows given: the input is [pre ++ kept ++ post]. *)
Theorem keep_writing_segment_contiguous {F : Type} (df : DataFrame F) :
  has_column "state" df = true ->
  Forall (fun r => state r = 1) (rows df) ->
  exists out,
    Infer.keep_writing_segment df = inr out /\
    Train.keep_writing_segment df = inr out /\
    Contiguous (rows df) (rows out).
Proof.
  intros Hs Hall. exists (trimmed df).
  split; [apply infer_keep_writing_segment_trimmed; exact Hs|].
  split; [apply train_keep_writing_segment_trimmed; exact Hs|].
  pose proof (trimmed_contiguous df) as Hc.
  unfold writing_rows in Hc. rewrite filter_all in Hc; [exact Hc|].
  eapply Forall_impl; [|exact Hall]. cbn. intros r Hr.
  unfold active. apply Z.eqb_eq. exact Hr.
Qed.

Lemma keep_writing_segment_contiguous_witness :
  Forall (fun r => state r = 1)
         (rows (frame_at [0; 50; 100; 150; 200; 250; 300; 350; 400; 450;
                          500; 550; 600; 650; 700; 750; 800])) /\
  exists out,
    Infer.keep_writing_segment
      (frame_at [0; 50; 100; 150; 200; 250; 300; 350; 400; 450;
                 500; 550; 600; 650; 700; 750; 800]) = inr out /\
    Train.keep_writing_segment
      (frame_at [0; 50; 100; 150; 200; 250; 300; 350; 400; 450;
                 500; 550; 600; 650; 700; 750; 800]) = inr out /\
    Contiguous
      (rows (frame_at [0; 50; 100; 150; 200; 250; 300; 350; 400; 450;
                       500; 550; 600; 650; 700; 750; 800]))
      (rows out).
Proof.
  assert (Hall : Forall (fun r : Rec float => state r = 1)
            (rows (frame_at [0; 50; 100; 150; 200; 250; 300; 350; 400; 450;
                             500; 550; 600; 650; 700; 750; 800])))
    by (repeat constructor).
  split; [exact Hall|].
  apply (@keep_writing_segment_contiguous float
           (frame_at [0; 50; 100; 150; 200; 250; 300; 350; 400; 450;
                      500; 550; 600; 650; 700; 750; 800])).
  - reflexivity.
  - exact Hall.
Defined.

(* ================================================================= *)
(** ** The segment stream controller *)

Section Controller.
Context {F : Type}.

Lemma on_record_writing (st : Infer.Loop F) (rec : Rec F) :
  state rec = 1 ->
  Infer.on_record st rec =
    (if Infer.in_write st then Infer.mkLoop (Infer.buf st ++ [rec]) true
     else Infer.mkLoop [rec] true, None).
Proof.
  intros H. unfold Infer.on_record. rewrite H. cbn.
  destruct st as [b []]; reflexivity.
Qed.

Lemma on_record_other (st : Infer.Loop F) (rec : Rec F) :
  state rec <> 1 ->
  Infer.on_record st rec =
    if Infer.in_write st then (Infer.mkLoop (Infer.buf st) false, Some (Infer.buf st))
    else (st, None).
Proof.
  intros H. unfold Infer.on_record.
  destruct (Z.eqb_spec (state rec) 1); [contradiction | reflexivity].
Qed.

(** From the idle state the buffer left over from the last segment is not
    read again. *)
Lemma segments_idle_buffer (b b' : list (Rec F)) (recs : list (Rec F)) :
  Infer.segments (Infer.mkLoop b false) recs
  = Infer.segments (Infer.mkLoop b' false) recs.
Proof.
  revert b b'. induction recs as [|r l IH]; intros b b'; [reflexivity|].
  cbn [Infer.segments]. destruct (Z.eq_dec (state r) 1) as [Hr|Hr].
  - rewrite !(on_record_writing _ _ Hr). reflexivity.
  - rewrite !(on_record_other _ _ Hr). cbn. apply IH.
Qed.

Lemma segments_writing (b : list (Rec F)) (seg l : list (Rec F)) :
  Forall writing seg ->
  Infer.segments (Infer.mkLoop b true) (seg ++ l)
  = Infer.segments (Infer.mkLoop (b ++ seg) true) l.
Proof.
  intros Hseg. revert b. induction Hseg as [|r seg Hr _ IH]; intros b.
  - now rewrite app_nil_r.
  - cbn [app Infer.segments]. rewrite (on_record_writing _ _ Hr). cbn.
    rewrite IH. now rewrite <- app_assoc.
Qed.

Lemma segments_from_idle (b : list (Rec F)) (r : Rec F) (l : list (Rec F)) :
  state r = 1 ->
  Infer.segments (Infer.mkLoop b false) (r :: l)
  = Infer.segments (Infer.mkLoop [r] true) l.
Proof.
  intros Hr. cbn [Infer.segments]. now rewrite (on_record_writing _ _ Hr).
Qed.

(** The loop emits the closed runs. *)
Lemma segments_runs (recs : list (Rec F)) :
  (forall b, Runs recs (Infer.segments (Infer.mkLoop b false) recs)) /\
  (forall b, b <> [] -> Forall writing b ->
             Runs (b ++ recs) (Infer.segments (Infer.mkLoop b true) recs)).
Proof.
  induction recs as [|r l [IHidle IHact]]; split; intros b.
  - constructor.
  - intros Hb Hw. rewrite app_nil_r. now apply Runs_open.
  - destruct (Z.eq_dec (state r) 1) as [Hr|Hr].
    + rewrite (segments_from_idle _ _ _ Hr).
      apply (IHact [r]); [discriminate | now repeat constructor].
    + cbn [Infer.segments]. rewrite (on_record_other _ _ Hr). cbn.
      apply Runs_idle; [exact Hr | apply IHidle].
  - intros Hb Hw. destruct (Z.eq_dec (state r) 1) as [Hr|Hr].
    + cbn [Infer.segments]. rewrite (on_record_writing _ _ Hr). cbn.
      replace (b ++ r :: l) with ((b ++ [r]) ++ l) by now rewrite <- app_assoc.
      apply IHact.
      * destruct b; discriminate.
      * apply Forall_app. split; [exact Hw | now repeat constructor].
    + cbn [Infer.segments]. rewrite (on_record_other _ _ Hr). cbn.
      apply Runs_closed; [exact Hb | exact Hw | exact Hr | apply IHidle].
Qed.

(** The closed runs are all the loop emits. *)
Lemma runs_segments (recs : list (Rec F)) (segs : list (list (Rec F))) :
  Runs recs segs -> forall b, segs = Infer.segments (Infer.mkLoop b false) recs.
Proof.
  induction 1 as [|r l segs Hr _ IH|seg Hne Hw|seg z l segs Hne Hw Hz _ IH];
    intros b.
  - reflexivity.
  - cbn [Infer.segments]. rewrite (on_record_other _ _ Hr). cbn. apply IH.
  - destruct seg as [|r seg]; [congruence|].
    inversion Hw as [|? ? Hr Hseg]; subst.
    rewrite (segments_from_idle _ _ _ Hr).
    rewrite <- (app_nil_r seg). rewrite (segments_writing _ _ Hseg).
    reflexivity.
  - destruct seg as [|r seg]; [congruence|].
    inversion Hw as [|? ? Hr Hseg]; subst.
    cbn [app]. rewrite (segments_from_idle _ _ _ Hr).
    rewrite (segments_writing _ _ Hseg).
    cbn [Infer.segments]. rewrite (on_record_other _ _ Hz). cbn.
    f_equal. apply IH.
Qed.

Lemma segments_count (st : Infer.Loop F) (recs : list (Rec F)) :
  List.length (Infer.segments st recs) = falling_edges (Infer.in_write st) recs.
Proof.
  revert st. induction recs as [|r l IH]; intros st; [reflexivity|].
  cbn [Infer.segments falling_edges]. unfold active at 1 2.
  destruct (Z.eqb_spec (state r) 1) as [Hr|Hr].
  - rewrite (on_record_writing _ _ Hr). rewrite andb_false_r. cbn [negb Nat.add].
    rewrite IH. destruct (Infer.in_write st); reflexivity.
  - rewrite (on_record_other _ _ Hr).
    destruct (Infer.in_write st) eqn:Hw; cbn; rewrite IH; cbn.
    + reflexivity.
    + now rewrite Hw.
Qed.

(** The buffer holds writing rows only, and so does every emitted segment. *)
Lemma on_record_invariant (st : Infer.Loop F) (rec : Rec F) :
  Forall writing (Infer.buf st) ->
  Forall writing (Infer.buf (fst (Infer.on_record st rec))) /\
  match snd (Infer.on_record st rec) with
  | Some seg => Forall writing seg
  | None => True
  end.
Proof.
  intros Hb. destruct (Z.eq_dec (state rec) 1) as [Hr|Hr].
  - rewrite (on_record_writing _ _ Hr). destruct (Infer.in_write st); cbn.
    + split; [|exact I]. apply Forall_app. split; [exact Hb|now repeat constructor].
    + split; [now repeat constructor | exact I].
  - rewrite (on_record_other _ _ Hr). destruct (Infer.in_write st); cbn; auto.
Qed.

Lemma segments_invariant (st : Infer.Loop F) (recs : list (Rec F)) :
  Forall writing (Infer.buf st) ->
  Forall (Forall writing) (Infer.segments st recs).
Proof.
  revert st. induction recs as [|r l IH]; intros st Hb; [constructor|].
  cbn [Infer.segments].
  destruct (on_record_invariant st r Hb) as [Hb' Hseg].
  destruct (Infer.on_record st r) as [st' [seg|]]; cbn in *.
  - constructor; [exact Hseg | apply IH; exact Hb'].
  - apply IH; exact Hb'.
Qed.

End Controller.

(** The loop over lines is the loop over the rows parsed from them: one
    report for each segment the parsed rows close. *)
Lemma main_loop_reports {F : Type} {A : Arith F}
  (py_int : string -> option Z) (py_float : string -> option F)
  (predict : list F -> Z) (st : Infer.Loop F) (lines : list string) :
  Infer.main_loop py_int py_float predict st lines
  = reports predict (Infer.segments st (parsed_rows py_int py_float lines)).
Proof.
  revert st. induction lines as [|line lines IH]; intros st; [reflexivity|].
  cbn [Infer.main_loop parsed_rows].
  destruct (String.eqb line ""); [apply IH|].
  destruct (Infer.parse_row py_int py_float line) as [rec|]; [|apply IH].
  cbn [Infer.segments].
  destruct (Infer.on_record st rec) as [st' [seg|]].
  - cbn [reports]. now rewrite IH.
  - apply IH.
Qed.

(** C4: the loop of [main], fed parsed rows from its start, emits exactly
    the writing runs that a non-writing row closes, each once and whole
    ([Runs], in both directions), one per change from writing to not
    writing; states 0,0,1,1,1,0,0 give one segment of the 3 writing rows and
    states 1,1,0,1,1,0 give two segments of 2 rows each. *)
Theorem segments_one_per_closed_run {F : Type} :
  (forall recs segs : _,
      Runs recs segs <-> segs = Infer.segments (@Infer.start F) recs) /\
  (forall recs : list (Rec F),
      List.length (Infer.segments Infer.start recs) = falling_edges false recs) /\
  (forall r1 r2 r3 r4 r5 r6 r7 : Rec F,
      Infer.segments Infer.start
        [with_state 0 r1; with_state 0 r2; with_state 1 r3; with_state 1 r4;
         with_state 1 r5; with_state 0 r6; with_state 0 r7]
      = [[with_state 1 r3; with_state 1 r4; with_state 1 r5]]) /\
  (forall r1 r2 r3 r4 r5 r6 : Rec F,
      Infer.segments Infer.start
        [with_state 1 r1; with_state 1 r2; with_state 0 r3; with_state 1 r4;
         with_state 1 r5; with_state 0 r6]
      = [[with_state 1 r1; with_state 1 r2]; [with_state 1 r4; with_state 1 r5]]).
Proof.
  split; [|split; [|split]].
  - intros recs segs. split.
    + intros H. apply (runs_segments H).
    + intros ->. apply segments_runs.
  - intros recs. apply (segments_count Infer.start).
  - intros. reflexivity.
  - intros. reflexivity.
Qed.

(** C9: a parsed row whose state is any integer other than 1 closes and
    emits the buffer when the loop is in a segment, and changes nothing
    when it is not; every step keeps the buffer made of rows with
    [state == 1], and every segment emitted from the start holds such rows
    only. *)
Theorem non_writing_row_is_idle {F : Type}
  (st : Infer.Loop F) (other any : Rec F) (recs : list (Rec F)) :
  state other <> 1 ->
  Forall writing (Infer.buf st) ->
  Infer.on_record st other
    = (if Infer.in_write st
       then (Infer.mkLoop (Infer.buf st) false, Some (Infer.buf st))
       else (st, None)) /\
  Forall writing (Infer.buf (fst (Infer.on_record st any))) /\
  match snd (Infer.on_record st any) with
  | Some seg => Forall writing seg
  | None => True
  end /\
  Forall (Forall writing) (Infer.segments Infer.start recs).
Proof.
  intros Ho Hb.
  split; [apply on_record_other; exact Ho|].
  destruct (on_record_invariant st any Hb) as [H1 H2].
  split; [exact H1|]. split; [exact H2|].
  apply segments_invariant. constructor.
Qed.

Lemma non_writing_row_is_idle_witness :
  Infer.on_record (Infer.mkLoop [still 0; still 10] true) (with_state 2 (still 20))
    = (Infer.mkLoop [still 0; still 10] false, Some [still 0; still 10]) /\
  Forall writing
    (Infer.buf (fst (Infer.on_record (Infer.mkLoop [still 0; still 10] true)
                                     (with_state (-1) (still 30))))) /\
  match snd (Infer.on_record (Infer.mkLoop [still 0; still 10] true)
                             (with_state (-1) (still 30))) with
  | Some seg => Forall writing seg
  | None => True
  end /\
  Forall (Forall writing)
    (Infer.segments Infer.start
       [still 0; with_state 2 (still 10); still 20; with_state 0 (still 30)]).
Proof.
  apply (@non_writing_row_is_idle float
           (Infer.mkLoop [still 0; still 10] true)
           (with_state 2 (still 20)) (with_state (-1) (still 30))
           [still 0; with_state 2 (still 10); still 20; with_state 0 (still 30)]).
  - cbn. lia.
  - repeat constructor.
Defined.

(* ================================================================= *)
(** ** The loops of [_local_maxima_1d] end within their fuel *)

Section LocalMaxima.
Context {F : Type} {A : Arith F}.

Lemma look_ahead_ge (fuel : nat) (x : list F) (xi : F) (i i_max : Z) :
  i <= look_ahead fuel x xi i i_max.
Proof.
  revert i. induction fuel as [|fuel IH]; intros i; cbn [look_ahead]; [lia|].
  destruct ((i <? i_max) && feq (at_index x i) xi); [|lia].
  specialize (IH (i + 1)). lia.
Qed.

Lemma look_ahead_fuel (fuel fuel' : nat) (x : list F) (xi : F) (i i_max : Z) :
  i_max - i <= Z.of_nat fuel -> (fuel <= fuel')%nat ->
  look_ahead fuel' x xi i i_max = look_ahead fuel x xi i i_max.
Proof.
  revert fuel' i. induction fuel as [|fuel IH]; intros fuel' i Hi Hf.
  - destruct fuel' as [|fuel']; [reflexivity|]. cbn [look_ahead].
    replace (i <? i_max) with false by (symmetry; apply Z.ltb_ge; lia).
    reflexivity.
  - destruct fuel' as [|fuel']; [lia|]. cbn [look_ahead].
    destruct ((i <? i_max) && feq (at_index x i) xi); [|reflexivity].
    apply IH; lia.
Qed.

Lemma local_maxima_loop_fuel (fuel fuel' : nat) (x : list F) (i i_max : Z) :
  i_max - i <= Z.of_nat fuel -> (fuel <= fuel')%nat ->
  local_maxima_loop fuel' x i i_max = local_maxima_loop fuel x i i_max.
Proof.
  revert fuel' i. induction fuel as [|fuel IH]; intros fuel' i Hi Hf.
  - destruct fuel' as [|fuel']; [reflexivity|]. cbn [local_maxima_loop].
    replace (i <? i_max) with false by (symmetry; apply Z.ltb_ge; lia).
    reflexivity.
  - destruct fuel' as [|fuel']; [lia|]. cbn [local_maxima_loop].
    destruct (i <? i_max); [|reflexivity].
    pose proof (look_ahead_ge (List.length x) x (at_index x i) (i + 1) i_max) as Hge.
    destruct (flt (at_index x (i - 1)) (at_index x i)); [|apply IH; lia].
    destruct (flt _ (at_index x i)).
    + f_equal. apply IH; lia.
    + apply IH; lia.
Qed.

(** More fuel than the length of the array changes nothing. *)
Lemma local_maxima_1d_fuel (extra : nat) (x : list F) :
  local_maxima_loop (List.length x + extra) x 1 (size x - 1) = local_maxima_1d x.
Proof.
  unfold local_maxima_1d. apply local_maxima_loop_fuel; unfold size; lia.
Qed.

(** From an index not before the start of the array, the look-ahead ends
    within the fuel it is given. *)
Lemma look_ahead_in_loop_fuel (extra : nat) (x : list F) (xi : F) (i : Z) :
  0 <= i ->
  look_ahead (List.length x + extra) x xi (i + 1) (size x - 1)
  = look_ahead (List.length x) x xi (i + 1) (size x - 1).
Proof.
  intros Hi. apply look_ahead_fuel; unfold size; lia.
Qed.

End LocalMaxima.

(* ================================================================= *)
(** ** The feature vector *)

Section FeatureLayout.
Context {F : Type} {A : Arith F}.

Lemma arr_mul_self (x : list F) :
  arr_mul x x = map (fun v => fmul v v) x.
Proof.
  unfold arr_mul. induction x as [|v x IH]; [reflexivity|].
  cbn [combine map fst snd]. now rewrite IH.
Qed.

Lemma size_nonempty (x : list F) : x <> [] -> (size x =? 0) = false.
Proof.
  intros H. apply Z.eqb_neq. unfold size. destruct x; [congruence|cbn; lia].
Qed.

Lemma infer_feat_channel_stats (x : list F) :
  x <> [] -> Infer.feat_channel x = inr (stats cheap_peaks x).
Proof.
  intros H. unfold Infer.feat_channel. rewrite (size_nonempty H).
  rewrite arr_mul_self. destruct x as [|v x]; [congruence|]. reflexivity.
Qed.

Lemma train_feat_channel_stats (x : list F) :
  x <> [] -> Train.feat_channel x = inr (stats scipy_peaks x).
Proof.
  intros H. unfold Train.feat_channel. rewrite (size_nonempty H).
  rewrite arr_mul_self. destruct x as [|v x]; [congruence|]. reflexivity.
Qed.



End FeatureLayout.

(** The zero-crossing count on two small signals. *)
Example zero_crossings_alternating :
  zero_crossings [1; -1; 1; -1]%float = 3 /\ zero_crossings [1; 1; 1]%float = 0.
Proof. split; vm_compute; reflexivity. Qed.

Section FeatureTotality.
Context {F : Type} {A : Arith F}.



(** The trimmed frame keeps the columns of the frame, unless it is
    [pd.DataFrame()]. *)
Lemma trimmed_columns (df : DataFrame F) :
  trimmed df = pd_DataFrame \/ columns (trimmed df) = columns df.
Proof.
  unfold trimmed.
  destruct (len (select active df) <? 8); [left; reflexivity|]. right.
  destruct (has_column "t_ms" df && _).
  - set (w := select _ (select active df)).
    destruct (len w <? 8); [destruct (4 <? len w)|]; reflexivity.
  - destruct (2 * _ <? _); reflexivity.
Qed.


End FeatureTotality.



(* ================================================================= *)
(** ** The two peak counts *)

(** C2: the two [feat_channel] functions are not equal: on the signal
    [0, 2, 2, 0], whose standard deviation is 1, the inference-time count is
    2 and the training-time count is 1, so the results differ (in their last
    entry). *)
Theorem feat_channel_peak_counts_differ :
  exists x : list float,
    cheap_peaks x = 2 /\
    scipy_peaks x = 1 /\
    Infer.feat_channel x <> Train.feat_channel x.
Proof.
  exists plateau. split; [vm_compute; reflexivity|].
  split; [vm_compute; reflexivity|].
  intros H.
  assert (Hi : Infer.feat_channel plateau = inr (stats cheap_peaks plateau))
    by (apply infer_feat_channel_stats; discriminate).
  assert (Ht : Train.feat_channel plateau = inr (stats scipy_peaks plateau))
    by (apply train_feat_channel_stats; discriminate).
  rewrite Hi, Ht in H.
  apply (f_equal (fun r => match r with
                           | inr v => PrimFloat.eqb (nth 7 v 0%float) 2%float
                           | inl _ => false
                           end)) in H.
  vm_compute in H. discriminate H.
Qed.

(* ================================================================= *)
(** ** Per-channel normalisation *)


(** With channel values of ordinary size constant channels give finite
    features: [ax = 0.1] and [ay = 9.81] on eight rows. *)
Example constant_channels_finite_features :
  match Infer.trial_features
          (DataFrame_of_records (map steady [200; 300; 400; 500; 600; 700; 800; 900]))
  with
  | inr v => forallb PrimFloat.is_finite v
  | inl _ => false
  end = true.
Proof. vm_compute. reflexivity. Qed.

Section ExactNormalization.
Local Open Scope R_scope.







End ExactNormalization.


(* ================================================================= *)
(** ** Row parsing *)

Example parse_row_well_formed :
  Infer.parse_row decimal_int decimal_float "  1500,1,-2,3,0,0,7,1,5 "
  = Some (mkRec 1500 1%float (-2)%float 3%float 0%float 0%float 7%float 1 "5").
Proof. vm_compute. reflexivity. Qed.

Example parse_row_malformed :
  Infer.parse_row decimal_int decimal_float "1500,1,-2,3,0,0,7,1" = None /\
  Infer.parse_row decimal_int decimal_float "1500,1,-2,3,0,0,7,1,5,9" = None /\
  Infer.parse_row decimal_int decimal_float "1500,1,x,3,0,0,7,1,5" = None /\
  Infer.parse_row decimal_int decimal_float "1500,1,-2,3,0,0,7,,5" = None.
Proof. repeat split; vm_compute; reflexivity. Qed.

(** C6: [parse_row] returns [None] exactly when the stripped line does not
    split on commas into 9 fields or [int] or [float] raises on one of the
    first 8; otherwise it returns a row whose nine fields are the parsed
    values of the first 8 fields and the 9th field as it is. *)
Theorem parse_row_all_or_nothing {F : Type}
  (py_int : string -> option Z) (py_float : string -> option F) (line : string) :
  match Infer.parse_row py_int py_float line with
  | None =>
      List.length (split "," (strip line)) <> 9%nat \/
      py_int (nth 0 (split "," (strip line)) ""%string) = None \/
      py_float (nth 1 (split "," (strip line)) ""%string) = None \/
      py_float (nth 2 (split "," (strip line)) ""%string) = None \/
      py_float (nth 3 (split "," (strip line)) ""%string) = None \/
      py_float (nth 4 (split "," (strip line)) ""%string) = None \/
      py_float (nth 5 (split "," (strip line)) ""%string) = None \/
      py_float (nth 6 (split "," (strip line)) ""%string) = None \/
      py_int (nth 7 (split "," (strip line)) ""%string) = None
  | Some rec =>
      List.length (split "," (strip line)) = 9%nat /\
      py_int (nth 0 (split "," (strip line)) ""%string) = Some (t_ms rec) /\
      py_float (nth 1 (split "," (strip line)) ""%string) = Some (ax rec) /\
      py_float (nth 2 (split "," (strip line)) ""%string) = Some (ay rec) /\
      py_float (nth 3 (split "," (strip line)) ""%string) = Some (az rec) /\
      py_float (nth 4 (split "," (strip line)) ""%string) = Some (gx rec) /\
      py_float (nth 5 (split "," (strip line)) ""%string) = Some (gy rec) /\
      py_float (nth 6 (split "," (strip line)) ""%string) = Some (gz rec) /\
      py_int (nth 7 (split "," (strip line)) ""%string) = Some (state rec) /\
      label rec = nth 8 (split "," (strip line)) ""%string
  end.
Proof.
  unfold Infer.parse_row.
  destruct (negb (Z.of_nat (List.length (split "," (strip line))) =? 9)) eqn:Hlen.
  - left. intros H. rewrite H in Hlen. discriminate Hlen.
  - apply negb_false_iff, Z.eqb_eq in Hlen.
    destruct (split "," (strip line))
      as [|p0 [|p1 [|p2 [|p3 [|p4 [|p5 [|p6 [|p7 [|p8 [|p9 rest]]]]]]]]]];
      cbn [List.length] in Hlen; try lia.
    clear Hlen. cbn [nth List.length].
    destruct (py_int p0) as [t|]; [|right; left; reflexivity].
    destruct (py_float p1) as [v1|]; [|right; right; left; reflexivity].
    destruct (py_float p2) as [v2|]; [|do 3 right; left; reflexivity].
    destruct (py_float p3) as [v3|]; [|do 4 right; left; reflexivity].
    destruct (py_float p4) as [v4|]; [|do 5 right; left; reflexivity].
    destruct (py_float p5) as [v5|]; [|do 6 right; left; reflexivity].
    destruct (py_float p6) as [v6|]; [|do 7 right; left; reflexivity].
    destruct (py_int p7) as [st|]; [|do 8 right; reflexivity].
    cbn. repeat split.
Qed.

(* ================================================================= *)
(** ** Corpus loading *)

Section Corpus.
Context {F : Type} {A : Arith F}.

(** Once the listing holds a file with a usable segment and a name without
    a label, the loop raises, whatever it has gathered so far. *)
Lemma load_loop_unlabelable
  (listing : list (Train.Path * option (DataFrame F)))
  (fp : Train.Path) (df dfw : DataFrame F) :
  In (fp, Some df) listing ->
  Train.keep_writing_segment df = inr dfw ->
  empty dfw = false ->
  Train.label_from_name fp = inl ValueError ->
  forall acc, exists e, Train.load_loop listing acc = inl e.
Proof.
  intros Hin Hk He Hl.
  induction listing as [|[fp' csv'] listing IH]; [contradiction|].
  intros acc. cbn [Train.load_loop].
  destruct Hin as [Heq|Hin].
  - inversion Heq; subst. rewrite Hk. cbn [bind]. rewrite He.
    destruct (Train.trial_features dfw) as [e|feats]; cbn [bind].
    + exists e. reflexivity.
    + rewrite Hl. exists ValueError. reflexivity.
  - specialize (IH Hin).
    destruct csv' as [df'|]; [|apply IH].
    destruct (Train.keep_writing_segment df') as [e|dfw']; cbn [bind].
    + exists e. reflexivity.
    + destruct (empty dfw'); [apply IH|].
      destruct (Train.trial_features dfw') as [e|feats]; cbn [bind].
      * exists e. reflexivity.
      * destruct (Train.label_from_name fp') as [e|lab]; cbn [bind].
        -- exists e. reflexivity.
        -- destruct acc as [[X y] files]. apply IH.
Qed.

End Corpus.

(** C7: when a file of the scanned listing reads as a frame whose trimmed
    segment is usable (not empty) and its name holds no digit label,
    [load_dataset] raises: it returns no corpus at all, neither a partial
    one nor one with a pair for that file. *)
Theorem load_dataset_aborts_on_unlabelable {F : Type} {A : Arith F}
  (listing : list (Train.Path * option (DataFrame F)))
  (fp : Train.Path) (df dfw : DataFrame F) :
  In (fp, Some df) listing ->
  Train.keep_writing_segment df = inr dfw ->
  empty dfw = false ->
  Train.label_from_name fp = inl ValueError ->
  exists e, Train.load_dataset listing = inl e.
Proof.
  intros Hin Hk He Hl. unfold Train.load_dataset.
  destruct (@load_loop_unlabelable F A listing fp df dfw Hin Hk He Hl ([], [], []))
    as [e H].
  exists e. rewrite H. reflexivity.
Qed.

Lemma load_dataset_aborts_on_unlabelable_witness :
  matches_glob "digit_x_1700000001.csv" = true /\
  exists e, Train.load_dataset sample_listing = inl e.
Proof.
  split; [reflexivity|].
  apply (@load_dataset_aborts_on_unlabelable float float64 sample_listing
           (Train.mkPath "4_seconds" "digit_x_1700000001.csv")
           sample_rows
           (mkDF record_keys
                 (map still [200; 250; 300; 350; 400; 450; 500; 550; 600]))).
  - right. left. reflexivity.
  - vm_compute. reflexivity.
  - reflexivity.
  - reflexivity.
Defined.

Example load_dataset_labelled :
  match Train.load_dataset
          [(Train.mkPath "4_seconds" "digit_3_1700000000.csv", Some sample_rows);
           (Train.mkPath "4_seconds" "digit_9_1700000002.csv", None);
           (Train.mkPath "4_seconds" "digit_7_1700000003.csv", Some (frame_at [0; 1]))]
  with
  | inr (X, y, files) =>
      (List.length X =? 1)%nat && (Z.of_nat (List.length y) =? 1) && (hd 0 y =? 3)
  | inl _ => false
  end = true.
Proof. vm_compute. reflexivity. Qed.


(* ================================================================= *)
(** ** Further properties of the segmenter *)

Section SegmenterMore.
Context {F : Type}.

Lemma writing_rows_all_writing (df : DataFrame F) :
  Forall writing (writing_rows df).
Proof.
  unfold writing_rows. apply Forall_forall. intros r Hr.
  apply filter_In in Hr as [_ Hr]. unfold active in Hr.
  apply Z.eqb_eq. exact Hr.
Qed.

Lemma contiguous_forall (P : Rec F -> Prop) (l out : list (Rec F)) :
  Contiguous l out -> Forall P l -> Forall P out.
Proof.
  intros (pre & post & ->) H.
  apply Forall_app in H as [_ H]. apply Forall_app in H as [H _]. exact H.
Qed.

Lemma has_column_columns (c : string) (df : DataFrame F) :
  has_column c df = true -> columns df <> [].
Proof.
  unfold has_column. destruct (columns df); [discriminate | discriminate].
Qed.

Lemma window_empty (lo hi : Z) (d : list (Rec F)) :
  hi < lo -> filter (in_window lo hi) d = [].
Proof.
  intros H. apply filter_none. apply Forall_forall. intros r _.
  unfold in_window.
  destruct (Z.leb_spec lo (t_ms r)); [|reflexivity].
  destruct (Z.leb_spec (t_ms r) hi); [lia|reflexivity].
Qed.

Lemma dropped_ends_length {T : Type} (k : Z) (l out : list T) :
  DroppedEnds k l out ->
  Z.of_nat (List.length out) = Z.of_nat (List.length l) - 2 * k.
Proof.
  intros (pre & post & Hpre & Hpost & ->). rewrite !length_app. lia.
Qed.

Lemma trimmed_missing_state_infer (df : DataFrame F) :
  has_column "state" df = false -> Infer.keep_writing_segment df = inl KeyError.
Proof.
  intros H. unfold Infer.keep_writing_segment. rewrite H. reflexivity.
Qed.

Lemma trimmed_missing_state_train (df : DataFrame F) :
  has_column "state" df = false -> Train.keep_writing_segment df = inl ValueError.
Proof.
  intros H. unfold Train.keep_writing_segment. rewrite H. reflexivity.
Qed.

End SegmenterMore.

(** X1: on any frame with a [state] column, rows of other states mixed in
    or not, both scripts return a frame whose rows are one consecutive run
    of the rows with [state == 1], so every returned row has [state == 1];
    the frame is [pd.DataFrame()] or has the columns of the input. *)
Theorem keep_writing_segment_keeps_writing_rows {F : Type} (df : DataFrame F) :
  has_column "state" df = true ->
  exists out,
    Infer.keep_writing_segment df = inr out /\
    Train.keep_writing_segment df = inr out /\
    Contiguous (writing_rows df) (rows out) /\
    Forall writing (rows out) /\
    (out = pd_DataFrame \/ columns out = columns df).
Proof.
  intros Hs. exists (trimmed df).
  split; [apply infer_keep_writing_segment_trimmed; exact Hs|].
  split; [apply train_keep_writing_segment_trimmed; exact Hs|].
  split; [apply trimmed_contiguous|].
  split; [|apply trimmed_columns].
  eapply contiguous_forall; [apply trimmed_contiguous|].
  apply writing_rows_all_writing.
Qed.

Lemma keep_writing_segment_keeps_writing_rows_witness :
  exists out,
    Infer.keep_writing_segment mixed_rows = inr out /\
    Train.keep_writing_segment mixed_rows = inr out /\
    Contiguous (writing_rows mixed_rows) (rows out) /\
    Forall writing (rows out) /\
    (out = pd_DataFrame \/ columns out = columns mixed_rows).
Proof.
  apply (@keep_writing_segment_keeps_writing_rows float mixed_rows).
  reflexivity.
Defined.

(** X2: the two copies of [keep_writing_segment] differ only on a frame
    without a [state] column, where infer.py raises [KeyError] and
    train_svm_digits.py raises [ValueError]; on every other frame both
    return the same frame and neither raises. *)
Theorem keep_writing_segment_scripts_agree {F : Type} (df : DataFrame F) :
  if has_column "state" df
  then Train.keep_writing_segment df = Infer.keep_writing_segment df /\
       exists out, Infer.keep_writing_segment df = inr out
  else Infer.keep_writing_segment df = inl KeyError /\
       Train.keep_writing_segment df = inl ValueError.
Proof.
  destruct (has_column "state" df) eqn:Hs.
  - rewrite (infer_keep_writing_segment_trimmed df Hs).
    rewrite (train_keep_writing_segment_trimmed df Hs).
    split; [reflexivity|]. exists (trimmed df). reflexivity.
  - split.
    + apply trimmed_missing_state_infer. exact Hs.
    + apply trimmed_missing_state_train. exact Hs.
Qed.

Lemma trimmed_short_span {F : Type} (df : DataFrame F) :
  has_column "t_ms" df = true ->
  is_monotonic_increasing (map (@t_ms F) (writing_rows df)) = true ->
  last_t (writing_rows df) - first_t (writing_rows df) < 400 ->
  rows (trimmed df) = [].
Proof.
  intros Ht Hm Hspan.
  unfold trimmed. destruct (len (select active df) <? 8); [reflexivity|].
  unfold col_t_ms. cbn [rows select]. fold (writing_rows df).
  rewrite Ht, Hm. cbn [andb].
  set (w := select _ (select active df)).
  assert (Hw : rows w = [])
    by (subst w; cbn [rows select]; fold (writing_rows df);
        apply window_empty; lia).
  destruct (len w <? 8); [|exact Hw].
  destruct (4 <? len w); [|exact Hw].
  cbn [rows iloc]. rewrite Hw. reflexivity.
Qed.

(** X3: when the writing rows carry non-decreasing timestamps that span
    less than 400 ms, the result has no row, however many rows there are:
    the two 200 ms margins leave no window. *)
Theorem keep_writing_segment_short_span {F : Type} (df : DataFrame F) :
  has_column "state" df = true ->
  has_column "t_ms" df = true ->
  is_monotonic_increasing (map (@t_ms F) (writing_rows df)) = true ->
  last_t (writing_rows df) - first_t (writing_rows df) < 400 ->
  exists out,
    Infer.keep_writing_segment df = inr out /\
    Train.keep_writing_segment df = inr out /\
    rows out = [] /\
    empty out = true.
Proof.
  intros Hs Ht Hm Hspan. exists (trimmed df).
  split; [apply infer_keep_writing_segment_trimmed; exact Hs|].
  split; [apply train_keep_writing_segment_trimmed; exact Hs|].
  assert (Hrows : rows (trimmed df) = [])
    by (apply trimmed_short_span; assumption).
  split; [exact Hrows|].
  unfold empty, len. rewrite Hrows. cbn. apply orb_true_r.
Qed.

Lemma keep_writing_segment_short_span_witness :
  last_t (writing_rows (frame_at [0; 30; 60; 90; 120; 150; 180; 210; 240; 270]))
    - first_t (writing_rows (frame_at [0; 30; 60; 90; 120; 150; 180; 210; 240; 270]))
    < 400 /\
  exists out,
    Infer.keep_writing_segment
      (frame_at [0; 30; 60; 90; 120; 150; 180; 210; 240; 270]) = inr out /\
    Train.keep_writing_segment
      (frame_at [0; 30; 60; 90; 120; 150; 180; 210; 240; 270]) = inr out /\
    rows out = [] /\
    empty out = true.
Proof.
  assert (H : last_t (writing_rows
                (frame_at [0; 30; 60; 90; 120; 150; 180; 210; 240; 270]))
              - first_t (writing_rows
                  (frame_at [0; 30; 60; 90; 120; 150; 180; 210; 240; 270]))
              < 400) by (vm_compute; reflexivity).
  split; [exact H|].
  apply (@keep_writing_segment_short_span float
           (frame_at [0; 30; 60; 90; 120; 150; 180; 210; 240; 270])).
  - reflexivity.
  - reflexivity.
  - vm_compute. reflexivity.
  - exact H.
Defined.

Lemma count_trim_keeps_four (n : Z) :
  8 <= n -> 2 * Z.max 2 (n / 20) < n /\ 4 <= n - 2 * Z.max 2 (n / 20).
Proof.
  intros Hn. pose proof (Z.mul_div_le n 20 ltac:(lia)) as Hq.
  destruct (Z.max_spec 2 (n / 20)) as [[Hlt ->]|[Hle ->]]; lia.
Qed.

(** X4: with at least 8 writing rows whose timestamps are missing or go
    backwards somewhere, the result is never empty: it has
    [n - 2 * max(2, n // 20)] rows, which is at least 4. *)
Theorem keep_writing_segment_count_path {F : Type} (df : DataFrame F) :
  has_column "state" df = true ->
  8 <= Z.of_nat (List.length (writing_rows df)) ->
  has_column "t_ms" df
    && is_monotonic_increasing (map (@t_ms F) (writing_rows df)) = false ->
  exists out,
    Infer.keep_writing_segment df = inr out /\
    Train.keep_writing_segment df = inr out /\
    Z.of_nat (List.length (rows out))
      = Z.of_nat (List.length (writing_rows df))
        - 2 * Z.max 2 (Z.of_nat (List.length (writing_rows df)) / 20) /\
    4 <= Z.of_nat (List.length (rows out)) /\
    empty out = false.
Proof.
  intros Hs Hn Hc. exists (trimmed df).
  split; [apply infer_keep_writing_segment_trimmed; exact Hs|].
  split; [apply train_keep_writing_segment_trimmed; exact Hs|].
  destruct (count_trim_keeps_four Hn) as [Hk H4].
  assert (Hk2 : 2 <= Z.max 2 (Z.of_nat (List.length (writing_rows df)) / 20))
    by apply Z.le_max_l.
  assert (Ht : trimmed df
               = iloc (Some (Z.max 2 (Z.of_nat (List.length (writing_rows df)) / 20)))
                      (Some (- Z.max 2 (Z.of_nat (List.length (writing_rows df)) / 20)))
                      (select active df)).
  { unfold trimmed, len, col_t_ms. cbn [rows select]. fold (writing_rows df).
    rewrite Hc.
    replace (Z.of_nat (List.length (writing_rows df)) <? 8) with false
      by (symmetry; apply Z.ltb_ge; lia).
    replace (2 * Z.max 2 (Z.of_nat (List.length (writing_rows df)) / 20)
             <? Z.of_nat (List.length (writing_rows df))) with true
      by (symmetry; apply Z.ltb_lt; lia).
    reflexivity. }
  assert (Hlen : Z.of_nat (List.length (rows (trimmed df)))
                 = Z.of_nat (List.length (writing_rows df))
                   - 2 * Z.max 2 (Z.of_nat (List.length (writing_rows df)) / 20)).
  { rewrite Ht. cbn [rows iloc select]. fold (writing_rows df).
    apply dropped_ends_length. apply slice_drops_ends; lia. }
  split; [exact Hlen|]. split; [lia|].
  unfold empty, len. apply orb_false_intro.
  - rewrite Ht. cbn [columns iloc select]. apply Z.eqb_neq.
    pose proof (has_column_columns _ _ Hs) as Hcol.
    destruct (columns df); [congruence | cbn [List.length]; lia].
  - apply Z.eqb_neq. lia.
Qed.

Lemma keep_writing_segment_count_path_witness :
  8 <= Z.of_nat (List.length (writing_rows unordered_rows)) /\
  exists out,
    Infer.keep_writing_segment unordered_rows = inr out /\
    Train.keep_writing_segment unordered_rows = inr out /\
    Z.of_nat (List.length (rows out))
      = Z.of_nat (List.length (writing_rows unordered_rows))
        - 2 * Z.max 2 (Z.of_nat (List.length (writing_rows unordered_rows)) / 20) /\
    4 <= Z.of_nat (List.length (rows out)) /\
    empty out = false.
Proof.
  assert (H : 8 <= Z.of_nat (List.length (writing_rows unordered_rows)))
    by (vm_compute; discriminate).
  split; [exact H|].
  apply (@keep_writing_segment_count_path float unordered_rows).
  - reflexivity.
  - exact H.
  - vm_compute. reflexivity.
Defined.

(** X5: when the writing rows carry non-decreasing timestamps, the result
    never has 5, 6 or 7 rows: a window of 5 to 7 rows loses 2 rows at each
    end, a smaller one is returned as it is. *)
Theorem keep_writing_segment_time_path_lengths {F : Type} (df : DataFrame F) :
  has_column "state" df = true ->
  has_column "t_ms" df = true ->
  is_monotonic_increasing (map (@t_ms F) (writing_rows df)) = true ->
  exists out,
    Infer.keep_writing_segment df = inr out /\
    Train.keep_writing_segment df = inr out /\
    (Z.of_nat (List.length (rows out)) <= 4 \/
     8 <= Z.of_nat (List.length (rows out))).
Proof.
  intros Hs Ht Hm. exists (trimmed df).
  split; [apply infer_keep_writing_segment_trimmed; exact Hs|].
  split; [apply train_keep_writing_segment_trimmed; exact Hs|].
  unfold trimmed. destruct (len (select active df) <? 8); [left; cbn; lia|].
  unfold col_t_ms. cbn [rows select]. fold (writing_rows df).
  rewrite Ht, Hm. cbn [andb].
  set (w := select _ (select active df)).
  destruct (Z.ltb_spec (len w) 8) as [H8|H8]; [|right; exact H8].
  destruct (Z.ltb_spec 4 (len w)) as [H4|H4]; [|left; exact H4].
  left. cbn [rows iloc].
  assert (Hd : DroppedEnds 2 (rows w) (slice (Some 2) (Some (-2)) (rows w)))
    by (apply slice_drops_ends; unfold len in H4; lia).
  apply dropped_ends_length in Hd. unfold len in H8. lia.
Qed.

Lemma keep_writing_segment_time_path_lengths_witness :
  exists out,
    Infer.keep_writing_segment
      (frame_at [0; 100; 200; 300; 400; 500; 600; 700; 800; 900]) = inr out /\
    Train.keep_writing_segment
      (frame_at [0; 100; 200; 300; 400; 500; 600; 700; 800; 900]) = inr out /\
    (Z.of_nat (List.length (rows out)) <= 4 \/
     8 <= Z.of_nat (List.length (rows out))).
Proof.
  apply (@keep_writing_segment_time_path_lengths float
           (frame_at [0; 100; 200; 300; 400; 500; 600; 700; 800; 900])).
  - reflexivity.
  - reflexivity.
  - vm_compute. reflexivity.
Defined.

(* ================================================================= *)
(** ** Further properties of the stream loop *)

Section LoopMore.
Context {F : Type}.

Lemma loop_state_cons (st : Infer.Loop F) (r : Rec F) (l : list (Rec F)) :
  loop_state st (r :: l) = loop_state (fst (Infer.on_record st r)) l.
Proof. reflexivity. Qed.

(** Emitted segments and the open rows together are the writing rows. *)
Lemma segments_conserve (recs : list (Rec F)) :
  forall st,
    List.concat (Infer.segments st recs) ++ open_rows (loop_state st recs)
    = open_rows st ++ filter active recs.
Proof.
  induction recs as [|r l IH]; intros [b w].
  - cbn. now rewrite app_nil_r.
  - rewrite loop_state_cons. cbn [Infer.segments filter].
    destruct (Z.eq_dec (state r) 1) as [Hr|Hr].
    + assert (Ha : active r = true) by (apply Z.eqb_eq; exact Hr).
      rewrite Ha, (on_record_writing _ r Hr).
      cbn [fst Infer.in_write Infer.buf].
      destruct w; rewrite IH; unfold open_rows;
        cbn [Infer.in_write Infer.buf app].
      * now rewrite <- app_assoc.
      * reflexivity.
    + assert (Ha : active r = false) by (apply Z.eqb_neq; exact Hr).
      rewrite Ha, (on_record_other _ r Hr).
      cbn [fst Infer.in_write Infer.buf].
      destruct w; cbn [List.concat]; [rewrite <- app_assoc|]; rewrite IH;
        unfold open_rows; cbn [Infer.in_write Infer.buf app]; reflexivity.
Qed.

Lemma segments_all_writing (recs : list (Rec F)) :
  Forall writing recs ->
  forall st,
    Infer.segments st recs = [] /\
    (recs <> [] ->
     loop_state st recs = Infer.mkLoop (open_rows st ++ recs) true).
Proof.
  induction 1 as [|r l Hr Hl IH]; intros st.
  - split; [reflexivity | congruence].
  - rewrite loop_state_cons. cbn [Infer.segments].
    rewrite (on_record_writing st r Hr). cbn [fst].
    set (st' := if Infer.in_write st then _ else _).
    destruct (IH st') as [Hseg Hst]. split; [exact Hseg|]. intros _.
    assert (Hopen : open_rows st' = open_rows st ++ [r]).
    { subst st'. unfold open_rows. destruct (Infer.in_write st); reflexivity. }
    destruct l as [|r' l].
    + cbn. subst st'. unfold open_rows.
      destruct (Infer.in_write st); reflexivity.
    + rewrite Hst by discriminate. rewrite Hopen, <- app_assoc. reflexivity.
Qed.


End LoopMore.

Section LinesMore.
Context {F : Type} {A : Arith F}.
Variable py_int : string -> option Z.
Variable py_float : string -> option F.
Variable predict : list F -> Z.

Lemma parsed_rows_app (l1 l2 : list string) :
  parsed_rows py_int py_float (l1 ++ l2)
  = parsed_rows py_int py_float l1 ++ parsed_rows py_int py_float l2.
Proof.
  induction l1 as [|line l1 IH]; [reflexivity|].
  cbn [app parsed_rows]. destruct (String.eqb line ""); [exact IH|].
  destruct (Infer.parse_row py_int py_float line); [|exact IH].
  cbn [app]. now rewrite IH.
Qed.

Lemma parsed_rows_unparsed (bad : string) :
  bad = EmptyString \/ Infer.parse_row py_int py_float bad = None ->
  parsed_rows py_int py_float [bad] = [].
Proof.
  intros [->|H]; cbn [parsed_rows]; [reflexivity|].
  destruct (String.eqb bad ""); [reflexivity|]. now rewrite H.
Qed.


End LinesMore.

(** X6: a line that is empty or that [parse_row] rejects changes nothing,
    wherever it stands among the lines: the loop goes on as if the line had
    not been read. *)
Theorem main_loop_ignores_unparsed_lines {F : Type} {A : Arith F}
  (py_int : string -> option Z) (py_float : string -> option F)
  (predict : list F -> Z) (st : Infer.Loop F)
  (before after : list string) (bad : string) :
  bad = EmptyString \/ Infer.parse_row py_int py_float bad = None ->
  Infer.main_loop py_int py_float predict st (before ++ bad :: after)
  = Infer.main_loop py_int py_float predict st (before ++ after).
Proof.
  intros Hbad. rewrite !main_loop_reports.
  change (bad :: after) with ([bad] ++ after).
  rewrite !parsed_rows_app, (parsed_rows_unparsed py_int py_float Hbad).
  reflexivity.
Qed.

Lemma main_loop_ignores_unparsed_lines_witness :
  Infer.main_loop decimal_int decimal_float (fun _ => 7) Infer.start
    (["10,0,0,0,0,0,0,1,3"%string; "20,0,0,0,0,0,0,1,3"%string]
     ++ "# note: 3 digits"%string :: ["30,0,0,0,0,0,0,0,3"%string])
  = Infer.main_loop decimal_int decimal_float (fun _ => 7) Infer.start
      (["10,0,0,0,0,0,0,1,3"%string; "20,0,0,0,0,0,0,1,3"%string]
       ++ ["30,0,0,0,0,0,0,0,3"%string]).
Proof.
  apply (@main_loop_ignores_unparsed_lines float float64
           decimal_int decimal_float (fun _ => 7) Infer.start).
  right. vm_compute. reflexivity.
Defined.

(** X7: no writing row is lost or doubled: from the start of the loop, the
    emitted segments one after the other, followed by the rows of the
    segment still open, are the rows with [state == 1] in the order they
    were read. *)
Theorem segments_conserve_writing_rows {F : Type} (recs : list (Rec F)) :
  List.concat (Infer.segments Infer.start recs)
    ++ open_rows (loop_state Infer.start recs)
  = filter active recs.
Proof. apply (segments_conserve recs Infer.start). Qed.

(** X8: while rows with [state == 1] keep coming nothing is emitted,
    however long the run: the rows are appended to the open segment. *)
Theorem open_run_is_buffered {F : Type} (st : Infer.Loop F) (recs : list (Rec F)) :
  Forall writing recs ->
  recs <> [] ->
  Infer.segments st recs = [] /\
  loop_state st recs = Infer.mkLoop (open_rows st ++ recs) true.
Proof.
  intros Hw Hne. destruct (segments_all_writing Hw st) as [H1 H2].
  split; [exact H1 | apply H2; exact Hne].
Qed.

Lemma open_run_is_buffered_witness :
  Infer.segments (Infer.mkLoop [still 0] true) [still 10; still 20; still 30] = [] /\
  loop_state (Infer.mkLoop [still 0] true) [still 10; still 20; still 30]
  = Infer.mkLoop (open_rows (Infer.mkLoop [still 0] true)
                  ++ [still 10; still 20; still 30]) true.
Proof.
  apply (@open_run_is_buffered float (Infer.mkLoop [still 0] true)
           [still 10; still 20; still 30]).
  - repeat constructor.
  - discriminate.
Defined.


(* ================================================================= *)
(** ** Further properties of row parsing *)

Lemma split_length (sep : ascii) (s : string) :
  List.length (split sep s) = S (count_char sep s).
Proof.
  induction s as [|c s IH]; [reflexivity|].
  cbn [split count_char].
  destruct (Ascii.eqb c sep).
  - cbn [List.length]. now rewrite IH.
  - destruct (split sep s) as [|w ws].
    + discriminate IH.
    + cbn [List.length] in *. exact IH.
Qed.

Lemma lstrip_spaces (pre s : string) :
  all_space pre = true -> lstrip (pre ++ s) = lstrip s.
Proof.
  induction pre as [|c pre IH]; intros H; [reflexivity|].
  cbn [all_space] in H. apply andb_prop in H as [Hc Hp].
  cbn [append lstrip]. rewrite Hc. apply IH. exact Hp.
Qed.

Lemma rstrip_spaces_only (post : string) :
  all_space post = true -> rstrip post = EmptyString.
Proof.
  induction post as [|c post IH]; intros H; [reflexivity|].
  cbn [all_space] in H. apply andb_prop in H as [Hc Hp].
  cbn [rstrip]. rewrite (IH Hp), Hc. reflexivity.
Qed.

Lemma rstrip_spaces (s post : string) :
  all_space post = true -> rstrip (s ++ post) = rstrip s.
Proof.
  intros H. induction s as [|c s IH].
  - cbn [append]. now apply rstrip_spaces_only.
  - cbn [append rstrip]. now rewrite IH.
Qed.

Lemma lstrip_all_space (s : string) :
  all_space s = true -> lstrip s = EmptyString.
Proof.
  induction s as [|c s IH]; intros H; [reflexivity|].
  cbn [all_space] in H. apply andb_prop in H as [Hc Hp].
  cbn [lstrip]. rewrite Hc. now apply IH.
Qed.

Lemma strip_spaces_right (s post : string) :
  all_space post = true -> strip (s ++ post) = strip s.
Proof.
  intros H. unfold strip. induction s as [|c s IH].
  - cbn [append]. now rewrite (lstrip_all_space post H).
  - cbn [append lstrip]. destruct (is_space c); [exact IH|].
    change (String c (s ++ post)) with (String c s ++ post)%string.
    now apply rstrip_spaces.
Qed.

Lemma strip_spaces (pre s post : string) :
  all_space pre = true -> all_space post = true ->
  strip (pre ++ s ++ post) = strip s.
Proof.
  intros Hpre Hpost. unfold strip.
  rewrite (lstrip_spaces pre (s ++ post) Hpre).
  now apply strip_spaces_right.
Qed.

(** X10: a line whose stripped text does not hold exactly 8 commas is
    rejected, whatever its fields are. *)
Theorem parse_row_needs_eight_commas {F : Type}
  (py_int : string -> option Z) (py_float : string -> option F) (line : string) :
  count_char "," (strip line) <> 8%nat ->
  Infer.parse_row py_int py_float line = None.
Proof.
  intros H. unfold Infer.parse_row.
  replace (negb (Z.of_nat (List.length (split "," (strip line))) =? 9)) with true;
    [reflexivity|].
  symmetry. apply negb_true_iff, Z.eqb_neq. rewrite split_length. lia.
Qed.

Lemma parse_row_needs_eight_commas_witness :
  Infer.parse_row decimal_int decimal_float "1500,1,-2,3" = None.
Proof.
  apply (@parse_row_needs_eight_commas float decimal_int decimal_float
           "1500,1,-2,3").
  vm_compute. discriminate.
Defined.

(** X11: whitespace around a line, the line ending among it, does not
    change what [parse_row] returns. *)
Theorem parse_row_ignores_surrounding_whitespace {F : Type}
  (py_int : string -> option Z) (py_float : string -> option F)
  (pre line post : string) :
  all_space pre = true ->
  all_space post = true ->
  Infer.parse_row py_int py_float (pre ++ line ++ post)
  = Infer.parse_row py_int py_float line.
Proof.
  intros Hpre Hpost. unfold Infer.parse_row.
  now rewrite (strip_spaces pre line post Hpre Hpost).
Qed.

Lemma parse_row_ignores_surrounding_whitespace_witness :
  Infer.parse_row decimal_int decimal_float
    (" " ++ "1500,1,-2,3,0,0,7,1,5"
         ++ String (ascii_of_nat 13) (String (ascii_of_nat 10) EmptyString))
  = Infer.parse_row decimal_int decimal_float "1500,1,-2,3,0,0,7,1,5".
Proof.
  apply (@parse_row_ignores_surrounding_whitespace float
           decimal_int decimal_float " " "1500,1,-2,3,0,0,7,1,5"
           (String (ascii_of_nat 13) (String (ascii_of_nat 10) EmptyString))).
  - reflexivity.
  - reflexivity.
Defined.

(* ================================================================= *)
(** ** Further properties of the features *)

Section FeaturesMore.
Context {F : Type} {A : Arith F}.

Lemma count_true_bounds (b : list bool) :
  0 <= count_true b <= Z.of_nat (List.length b).
Proof.
  unfold count_true. pose proof (filter_length_le (fun v : bool => v) b). lia.
Qed.

Lemma slice_length_bound {T : Type} (a b : option Z) (l : list T) :
  Z.of_nat (List.length (slice a b l))
  <= Z.max 0
       (match b with
        | Some i => slice_bound (Z.of_nat (List.length l)) i
        | None => Z.of_nat (List.length l)
        end
        - match a with
          | Some i => slice_bound (Z.of_nat (List.length l)) i
          | None => 0
          end).
Proof.
  unfold slice. rewrite length_firstn. lia.
Qed.

Lemma arr_mul_length (a b : list F) :
  (List.length (arr_mul a b) <= List.length a)%nat.
Proof.
  unfold arr_mul. rewrite length_map, length_combine. lia.
Qed.

Lemma zero_crossings_bounds (x : list F) :
  0 <= zero_crossings x <= Z.max 0 (size x - 1).
Proof.
  unfold zero_crossings.
  pose proof (count_true_bounds
                (map (fun v => flt v (of_Z 0))
                     (arr_mul (slice None (Some (-1)) x) (slice (Some 1) None x))))
    as [H0 H1].
  rewrite length_map in H1.
  pose proof (arr_mul_length (slice None (Some (-1)) x) (slice (Some 1) None x)) as H2.
  pose proof (slice_length_bound None (Some (-1)) x) as H3.
  unfold slice_bound in H3. change (-1 <? 0) with true in H3.
  cbv beta iota in H3. unfold size. split; [exact H0|].
  apply Nat2Z.inj_le in H2.
  eapply Z.le_trans; [exact H1|]. eapply Z.le_trans; [exact H2|].
  eapply Z.le_trans; [exact H3|]. lia.
Qed.

Lemma cheap_peaks_bounds (x : list F) :
  0 <= cheap_peaks x <= Z.max 0 (size x - 2).
Proof.
  unfold cheap_peaks.
  match goal with |- 0 <= count_true ?b <= _ =>
    pose proof (count_true_bounds b) as [H0 H1] end.
  rewrite length_map, !length_combine in H1.
  unfold np_abs in H1. rewrite !length_map in H1.
  pose proof (slice_length_bound (Some 1) (Some (-1)) x) as H3.
  unfold slice_bound in H3.
  change (-1 <? 0) with true in H3. change (1 <? 0) with false in H3.
  cbv beta iota in H3. unfold size. split; [exact H0|].
  eapply Z.le_trans; [exact H1|].
  eapply Z.le_trans; [|eapply Z.le_trans; [exact H3|lia]].
  apply Nat2Z.inj_le. eapply Nat.le_trans; apply Nat.le_min_l.
Qed.

Lemma local_maxima_loop_length (fuel : nat) (x : list F) (i i_max : Z) :
  Z.of_nat (List.length (local_maxima_loop fuel x i i_max)) <= Z.max 0 (i_max - i).
Proof.
  revert i. induction fuel as [|fuel IH]; intros i; cbn [local_maxima_loop].
  - cbn. lia.
  - destruct (Z.ltb_spec i i_max) as [Hi|Hi]; [|cbn; lia].
    pose proof (look_ahead_ge (List.length x) x (at_index x i) (i + 1) i_max) as Hge.
    destruct (flt (at_index x (i - 1)) (at_index x i)).
    + destruct (flt _ (at_index x i)).
      * cbn [List.length]. specialize (IH (look_ahead (List.length x) x
                                            (at_index x i) (i + 1) i_max + 1)).
        lia.
      * specialize (IH (i + 1)). lia.
    + specialize (IH (i + 1)). lia.
Qed.

Lemma scipy_peaks_bounds (x : list F) :
  0 <= scipy_peaks x <= Z.max 0 (size x - 2).
Proof.
  unfold scipy_peaks, find_peaks, local_maxima_1d.
  match goal with |- 0 <= Z.of_nat (List.length (filter ?p ?l)) <= _ =>
    pose proof (filter_length_le p l) as H1 end.
  pose proof (local_maxima_loop_length (List.length (np_abs x)) (np_abs x) 1
                (size (np_abs x) - 1)) as H2.
  unfold size, np_abs in *. rewrite !length_map in *. lia.
Qed.

Lemma infer_feat_channel_empty :
  Infer.feat_channel (@nil F) = inr (repeat (of_Z 0) 8).
Proof. reflexivity. Qed.

Lemma train_feat_channel_empty :
  Train.feat_channel (@nil F) = inr (repeat (of_Z 0) 8).
Proof. reflexivity. Qed.

End FeaturesMore.

(** X12: on a frame with the six channel columns and no row,
    [trial_features] of either script raises [IndexError] when the frame
    has a [t_ms] column (the look-up of the last timestamp), and returns 52
    zeros when it has none. *)
Theorem trial_features_no_rows {F : Type} {A : Arith F} (df : DataFrame F) :
  forallb (fun c => has_column c df) Infer.CHANNELS = true ->
  rows df = [] ->
  Infer.trial_features df
    = (if has_column "t_ms" df then inl IndexError else inr (repeat (of_Z 0) 52)) /\
  Train.trial_features df
    = (if has_column "t_ms" df then inl IndexError else inr (repeat (of_Z 0) 52)).
Proof.
  intros Hc Hr.
  unfold Infer.trial_features, Train.trial_features.
  change Train.CHANNELS with Infer.CHANNELS. rewrite Hc. cbn [negb].
  unfold col_t_ms. rewrite Hr. cbn [map normalized].
  rewrite infer_feat_channel_empty, train_feat_channel_empty.
  destruct (has_column "t_ms" df); split; reflexivity.
Qed.

Lemma trial_features_no_rows_witness :
  Infer.trial_features (mkDF record_keys (@nil (Rec float))) = inl IndexError /\
  Train.trial_features (mkDF record_keys (@nil (Rec float))) = inl IndexError.
Proof.
  apply (@trial_features_no_rows float float64 (mkDF record_keys [])).
  - reflexivity.
  - reflexivity.
Defined.

(** X13: the counting features stay within the length of the channel: the
    zero-crossing count is between 0 and [len - 1], and both peak counts
    (the inference-time one and the [find_peaks] one) are between 0 and
    [len - 2]; on fewer than 2 (resp. 3) samples they are 0. *)
Theorem counting_features_bounded {F : Type} {A : Arith F} (x : list F) :
  0 <= zero_crossings x <= Z.max 0 (size x - 1) /\
  0 <= cheap_peaks x <= Z.max 0 (size x - 2) /\
  0 <= scipy_peaks x <= Z.max 0 (size x - 2).
Proof.
  split; [apply zero_crossings_bounds|].
  split; [apply cheap_peaks_bounds | apply scipy_peaks_bounds].
Qed.

Section ExactFeatures.
Local Open Scope R_scope.

Lemma exact_sum_acc (l : list R) (a : R) :
  fold_left Rplus l a = a + fold_left Rplus l 0.
Proof.
  revert a. induction l as [|v l IH]; intros a; cbn [fold_left].
  - ring.
  - rewrite (IH (a + v)), (IH (0 + v)). ring.
Qed.


Lemma exact_sum_squares_nonneg (l : list R) :
  0 <= fold_left Rplus (map (fun v => v * v) l) 0.
Proof.
  induction l as [|v l IH]; cbn [map fold_left]; [lra|].
  rewrite exact_sum_acc. pose proof (Rle_0_sqr v) as Hv. unfold Rsqr in Hv. lra.
Qed.








End ExactFeatures.





(* ================================================================= *)
(** ** Further properties of labels and corpus loading *)

Lemma digit_pat_here_some (s : string) (c : ascii) :
  Train.digit_pat_here s = Some c ->
  is_digit c = true /\
  exists post, s = ("digit_" ++ String c ("_" ++ post))%string.
Proof.
  intros H.
  destruct s as [|a1 s]; [discriminate H|]. char_cases a1 H.
  destruct s as [|a2 s]; [discriminate H|]. char_cases a2 H.
  destruct s as [|a3 s]; [discriminate H|]. char_cases a3 H.
  destruct s as [|a4 s]; [discriminate H|]. char_cases a4 H.
  destruct s as [|a5 s]; [discriminate H|]. char_cases a5 H.
  destruct s as [|a6 s]; [discriminate H|]. char_cases a6 H.
  destruct s as [|d s]; [discriminate H|].
  destruct s as [|a8 s]; [discriminate H|]. char_cases a8 H.
  cbn in H. destruct (is_digit d) eqn:Hd; [|discriminate H].
  inversion H; subst. split; [exact Hd|]. exists s. reflexivity.
Qed.

Lemma digit_pat_here_match (c : ascii) (post : string) :
  is_digit c = true ->
  Train.digit_pat_here ("digit_" ++ String c ("_" ++ post)) = Some c.
Proof. intros H. cbn. now rewrite H. Qed.

Lemma digit_pat_search_some (s : string) (c : ascii) :
  Train.digit_pat_search s = Some c ->
  is_digit c = true /\ occurs_in ("digit_" ++ String c "_") s.
Proof.
  induction s as [|a s IH]; intros H.
  - cbn in H. discriminate H.
  - cbn [Train.digit_pat_search] in H.
    destruct (Train.digit_pat_here (String a s)) as [c'|] eqn:Hh.
    + inversion H; subst.
      destruct (digit_pat_here_some _ Hh) as [Hd [post Hs]].
      split; [exact Hd|]. exists EmptyString, post. rewrite Hs. reflexivity.
    + destruct (IH H) as [Hd (pre & post & Hs)].
      split; [exact Hd|]. exists (String a pre), post. rewrite Hs. reflexivity.
Qed.

Lemma digit_pat_search_none (s : string) :
  Train.digit_pat_search s = None ->
  forall c, is_digit c = true -> ~ occurs_in ("digit_" ++ String c "_") s.
Proof.
  induction s as [|a s IH]; intros H c Hc (pre & post & Hs).
  - destruct pre; discriminate Hs.
  - cbn [Train.digit_pat_search] in H.
    destruct (Train.digit_pat_here (String a s)) as [c'|] eqn:Hh;
      [discriminate H|].
    destruct pre as [|b pre].
    + rewrite Hs in Hh.
      change (("" ++ ("digit_" ++ String c "_") ++ post)%string)
        with ("digit_" ++ String c ("_" ++ post))%string in Hh.
      rewrite (digit_pat_here_match c post Hc) in Hh. discriminate Hh.
    + inversion Hs; subst. apply (IH H c Hc). exists pre, post. reflexivity.
Qed.

Lemma digit_value_range (c : ascii) :
  is_digit c = true -> 0 <= digit_value c <= 9.
Proof.
  unfold is_digit, digit_value. intros H.
  apply andb_prop in H as [H1 H2].
  apply Z.leb_le in H1. apply Z.leb_le in H2. lia.
Qed.

(** X16: a label that [label_from_name] returns is one of 0 .. 9. *)
Theorem label_from_name_digit_range (p : Train.Path) (l : Z) :
  Train.label_from_name p = inr l -> 0 <= l <= 9.
Proof.
  unfold Train.label_from_name. intros H.
  destruct (Train.digit_pat_search (Train.name p)) as [c|] eqn:Hs;
    [|discriminate H].
  inversion H; subst.
  apply digit_value_range. apply (digit_pat_search_some _ Hs).
Qed.

Lemma label_from_name_digit_range_witness :
  Train.label_from_name (Train.mkPath "4_seconds" "digit_7_1700000003.csv")
    = inr 7 /\
  0 <= 7 <= 9.
Proof.
  assert (H : Train.label_from_name
                (Train.mkPath "4_seconds" "digit_7_1700000003.csv") = inr 7)
    by reflexivity.
  split; [exact H|].
  apply (@label_from_name_digit_range
           (Train.mkPath "4_seconds" "digit_7_1700000003.csv") 7 H).
Defined.

(** X17: [label_from_name] succeeds exactly when the file name holds
    [digit_], one digit and [_] somewhere, and then returns a digit that
    stands in such a place; on every other name it raises [ValueError]. *)
Theorem label_from_name_iff_pattern (p : Train.Path) :
  match Train.label_from_name p with
  | inr l =>
      exists c, is_digit c = true /\ l = digit_value c /\
                occurs_in ("digit_" ++ String c "_") (Train.name p)
  | inl e =>
      e = ValueError /\
      forall c, is_digit c = true ->
                ~ occurs_in ("digit_" ++ String c "_") (Train.name p)
  end.
Proof.
  unfold Train.label_from_name.
  destruct (Train.digit_pat_search (Train.name p)) as [c|] eqn:Hs; cbn.
  - destruct (digit_pat_search_some _ Hs) as [Hd Ho].
    exists c. repeat split; assumption.
  - split; [reflexivity|]. apply digit_pat_search_none. exact Hs.
Qed.

Section CorpusMore.
Context {F : Type} {A : Arith F}.

Lemma load_loop_step_passed_over
  (entry : Train.Path * option (DataFrame F))
  (listing : list (Train.Path * option (DataFrame F))) (acc : Train.Corpus) :
  passed_over entry = true ->
  Train.load_loop (entry :: listing) acc = Train.load_loop listing acc.
Proof.
  destruct entry as [fp [df|]]; unfold passed_over; cbn [snd Train.load_loop];
    [|reflexivity].
  destruct (Train.keep_writing_segment df) as [e|dfw]; [discriminate|].
  intros He. cbn [bind]. now rewrite He.
Qed.

Lemma load_loop_all_passed_over
  (listing : list (Train.Path * option (DataFrame F))) (acc : Train.Corpus) :
  forallb passed_over listing = true ->
  Train.load_loop listing acc = inr acc.
Proof.
  induction listing as [|entry listing IH]; intros H; [reflexivity|].
  cbn [forallb] in H. apply andb_prop in H as [He Hl].
  rewrite (load_loop_step_passed_over entry listing acc He). apply IH. exact Hl.
Qed.

Lemma load_loop_skips
  (before after : list (Train.Path * option (DataFrame F)))
  (entry : Train.Path * option (DataFrame F)) :
  passed_over entry = true ->
  forall acc,
    Train.load_loop (before ++ entry :: after) acc
    = Train.load_loop (before ++ after) acc.
Proof.
  intros He. induction before as [|[fp csv] before IH]; intros acc.
  - apply load_loop_step_passed_over. exact He.
  - cbn [app Train.load_loop]. destruct csv as [df|]; [|apply IH].
    destruct (Train.keep_writing_segment df) as [e|dfw]; [reflexivity|].
    cbn [bind]. destruct (empty dfw); [apply IH|].
    destruct (Train.trial_features dfw) as [e|feats]; [reflexivity|].
    cbn [bind]. destruct (Train.label_from_name fp) as [e|lab]; [reflexivity|].
    cbn [bind]. destruct acc as [[X y] files]. apply IH.
Qed.

Lemma train_feat_channel_length (x v : list F) :
  Train.feat_channel x = inr v -> List.length v = 8%nat.
Proof.
  unfold Train.feat_channel. destruct (size x =? 0).
  - intros H. inversion H. reflexivity.
  - destruct (np_max x) as [e|hi]; [discriminate|].
    destruct (np_min x) as [e|lo]; [discriminate|].
    cbn [bind]. intros H. inversion H. reflexivity.
Qed.

Lemma train_trial_features_length (df : DataFrame F) (v : list F) :
  Train.trial_features df = inr v -> List.length v = 52%nat.
Proof.
  unfold Train.trial_features.
  destruct (negb _); [discriminate|].
  match goal with |- bind ?d _ = _ -> _ => destruct d as [e|dur]; [discriminate|] end.
  cbn [bind].
  repeat match goal with
         | |- bind (Train.feat_channel ?x) _ = _ -> _ =>
             let H := fresh "Hf" in
             destruct (Train.feat_channel x) as [?|?] eqn:H;
             [discriminate | apply train_feat_channel_length in H; cbn [bind]]
         end.
  intros H. inversion H. rewrite !length_app. cbn [List.length]. lia.
Qed.

(** What the loop keeps true of the corpus it builds. *)
Lemma load_loop_shape (paths : list Train.Path)
  (listing : list (Train.Path * option (DataFrame F))) :
  incl (map fst listing) paths ->
  forall X y files X' y' files',
    Train.load_loop listing (X, y, files) = inr (X', y', files') ->
    List.length X = List.length y -> List.length y = List.length files ->
    Forall (fun v => List.length v = 52%nat) X ->
    Forall (fun l => 0 <= l <= 9) y ->
    incl files paths ->
    (List.length X <= List.length X')%nat /\
    List.length X' = List.length y' /\ List.length y' = List.length files' /\
    Forall (fun v => List.length v = 52%nat) X' /\
    Forall (fun l => 0 <= l <= 9) y' /\
    incl files' paths.
Proof.
  induction listing as [|[fp csv] listing IH]; intros Hin X y files X' y' files'.
  - cbn. intros H. inversion H; subst. intuition.
  - assert (Hin' : incl (map fst listing) paths)
      by (intros q Hq; apply Hin; right; exact Hq).
    assert (Hfp : In fp paths) by (apply Hin; left; reflexivity).
    cbn [Train.load_loop]. destruct csv as [df|]; [|apply IH; exact Hin'].
    destruct (Train.keep_writing_segment df) as [e|dfw]; [discriminate|].
    cbn [bind]. destruct (empty dfw); [apply IH; exact Hin'|].
    destruct (Train.trial_features dfw) as [e|feats] eqn:Hf; [discriminate|].
    cbn [bind]. destruct (Train.label_from_name fp) as [e|lab] eqn:Hl;
      [discriminate|].
    cbn [bind]. intros H HX Hy H52 H09 Hfiles.
    destruct (IH Hin' _ _ _ _ _ _ H) as (Hle & H').
    + rewrite !length_app. cbn. lia.
    + rewrite !length_app. cbn. lia.
    + apply Forall_app. split; [exact H52|].
      constructor; [|constructor]. apply (train_trial_features_length _ Hf).
    + apply Forall_app. split; [exact H09|].
      constructor; [|constructor].
      unfold Train.label_from_name in Hl.
      destruct (Train.digit_pat_search (Train.name fp)) as [c|] eqn:Hs;
        [|discriminate Hl].
      inversion Hl; subst. apply digit_value_range.
      apply (digit_pat_search_some _ Hs).
    + apply incl_app; [exact Hfiles|]. intros q [<-|[]]. exact Hfp.
    + split; [|exact H']. rewrite length_app in Hle. lia.
Qed.

End CorpusMore.

(** X18: when every listed file does not read or trims to an empty
    segment (an empty listing included), [load_dataset] raises
    [RuntimeError] instead of returning an empty corpus. *)
Theorem load_dataset_no_usable_file {F : Type} {A : Arith F}
  (listing : list (Train.Path * option (DataFrame F))) :
  forallb passed_over listing = true ->
  Train.load_dataset listing = inl RuntimeError.
Proof.
  intros H. unfold Train.load_dataset.
  rewrite (load_loop_all_passed_over listing _ H). reflexivity.
Qed.

Lemma load_dataset_no_usable_file_witness :
  Train.load_dataset
    [(Train.mkPath "4_seconds" "digit_9_1700000002.csv", None);
     (Train.mkPath "4_seconds" "digit_7_1700000003.csv", Some (frame_at [0; 1]))]
  = inl RuntimeError.
Proof.
  apply (@load_dataset_no_usable_file float float64
           [(Train.mkPath "4_seconds" "digit_9_1700000002.csv", None);
            (Train.mkPath "4_seconds" "digit_7_1700000003.csv",
             Some (frame_at [0; 1]))]).
  vm_compute. reflexivity.
Defined.

(** X19: a corpus that [load_dataset] returns is not empty, has as many
    labels and file paths as feature rows, every feature row has 52
    entries, every label is one of 0 .. 9, and every path is one of the
    listing. *)
Theorem load_dataset_corpus_shape {F : Type} {A : Arith F}
  (listing : list (Train.Path * option (DataFrame F)))
  (X : list (list F)) (y : list Z) (files : list Train.Path) :
  Train.load_dataset listing = inr (X, y, files) ->
  X <> [] /\
  List.length X = List.length y /\
  List.length y = List.length files /\
  Forall (fun v => List.length v = 52%nat) X /\
  Forall (fun l => 0 <= l <= 9) y /\
  incl files (map fst listing).
Proof.
  unfold Train.load_dataset. intros H.
  destruct (Train.load_loop listing ([], [], [])) as [e|[[X0 y0] files0]] eqn:Hl;
    [discriminate H|].
  cbn [bind fst] in H. destruct X0 as [|v X0]; [discriminate H|].
  inversion H; subst.
  split; [discriminate|].
  destruct (@load_loop_shape F A (map fst listing) listing (incl_refl _)
              [] [] [] _ _ _ Hl) as (_ & Hrest); auto.
  intros q [].
Qed.

Lemma load_dataset_corpus_shape_witness :
  exists X y files,
    Train.load_dataset sample_corpus_listing = inr (X, y, files) /\
    X <> [] /\
    List.length X = List.length y /\
    List.length y = List.length files /\
    Forall (fun v => List.length v = 52%nat) X /\
    Forall (fun l => 0 <= l <= 9) y /\
    incl files (map fst sample_corpus_listing).
Proof.
  destruct (Train.load_dataset sample_corpus_listing) as [e|[[X y] files]] eqn:H.
  - vm_compute in H. discriminate H.
  - exists X, y, files. split; [reflexivity|].
    apply (@load_dataset_corpus_shape float float64 sample_corpus_listing
             X y files H).
Defined.

(** X20: a listed file that does not read, or whose trimmed segment is
    empty, is passed over without a look at its name: the result is the
    one for the listing without it. *)
Theorem load_dataset_skips_unusable {F : Type} {A : Arith F}
  (before after : list (Train.Path * option (DataFrame F)))
  (entry : Train.Path * option (DataFrame F)) :
  passed_over entry = true ->
  Train.load_dataset (before ++ entry :: after)
  = Train.load_dataset (before ++ after).
Proof.
  intros He. unfold Train.load_dataset.
  now rewrite (load_loop_skips before after entry He).
Qed.

Lemma load_dataset_skips_unusable_witness :
  Train.load_dataset
    ([(Train.mkPath "4_seconds" "digit_3_1700000000.csv", Some sample_rows)]
     ++ (Train.mkPath "4_seconds" "digit_x_1700000004.csv", Some (frame_at [0; 1]))
     :: [(Train.mkPath "4_seconds" "digit_5_1700000005.csv", Some sample_rows)])
  = Train.load_dataset
      ([(Train.mkPath "4_seconds" "digit_3_1700000000.csv", Some sample_rows)]
       ++ [(Train.mkPath "4_seconds" "digit_5_1700000005.csv", Some sample_rows)]).
Proof.
  apply (@load_dataset_skips_unusable float float64
           [(Train.mkPath "4_seconds" "digit_3_1700000000.csv", Some sample_rows)]
           [(Train.mkPath "4_seconds" "digit_5_1700000005.csv", Some sample_rows)]
           (Train.mkPath "4_seconds" "digit_x_1700000004.csv",
            Some (frame_at [0; 1]))).
  vm_compute. reflexivity.
Defined.

(* ================================================================= *)
(** ** Properties of the capture utility *)

Lemma after_prefix_some (p s r : string) :
  Write.after_prefix p s = Some r -> s = (p ++ r)%string.
Proof.
  revert s. induction p as [|a p IH]; intros s H.
  - cbn in H. inversion H. reflexivity.
  - destruct s as [|b s]; [discriminate H|]. cbn [Write.after_prefix] in H.
    destruct (Ascii.eqb_spec a b) as [->|]; [|discriminate H].
    cbn [append]. f_equal. apply IH. exact H.
Qed.

Lemma marker_match_some (word line g : string) :
  Write.marker_match word line = Some g ->
  exists rest, line = (word ++ rest)%string /\ rest <> EmptyString.
Proof.
  unfold Write.marker_match. intros H.
  destruct (Write.after_prefix word line) as [rest|] eqn:Hp; [|discriminate H].
  exists rest. split; [apply after_prefix_some; exact Hp|].
  destruct rest; [discriminate H | discriminate].
Qed.

Lemma start_marker_shape (line g : string) :
  Write.start_re_match line = Some g ->
  String.eqb line "" = false /\ String.prefix "# START" line = true.
Proof.
  intros H. destruct (marker_match_some _ _ H) as (rest & -> & _).
  split; reflexivity.
Qed.

Lemma stop_marker_shape (line g : string) :
  Write.stop_re_match line = Some g ->
  String.eqb line "" = false /\ String.prefix "# START" line = false /\
  String.prefix "# STOP" line = true.
Proof.
  intros H. destruct (marker_match_some _ _ H) as (rest & -> & _).
  repeat split; reflexivity.
Qed.

Lemma prefix_hash (p line : string) :
  String.prefix (String "#" p) line = true -> String.prefix "#" line = true.
Proof.
  destruct line as [|b line]; [discriminate|]. cbn [String.prefix].
  destruct (ascii_dec "#" b); [intros _; destruct line; reflexivity | discriminate].
Qed.

Section WaitLoop.
Variable target_label : string.

(** One pass of the loop on a read that is no marker for the label, with a
    segment open: the data row, if the read is one, is appended. *)
Lemma wait_loop_no_marker (raw : option string) (reads : list (option string))
  (buf : list (list string)) :
  no_marker_for target_label raw = true ->
  Write.wait_loop target_label buf true (raw :: reads)
  = Write.wait_loop target_label (buf ++ data_rows [raw]) true reads.
Proof.
  unfold no_marker_for, data_rows. cbn [flat_map Write.wait_loop].
  set (line := Write.read_line raw). intros H.
  apply andb_prop in H as [Hstart Hstop].
  apply negb_true_iff in Hstart. apply negb_true_iff in Hstop.
  rewrite !app_nil_r.
  destruct (String.eqb line "") eqn:He; [now rewrite app_nil_r|]. cbn [orb].
  destruct (String.prefix "# START" line) eqn:Hps.
  { rewrite (prefix_hash _ _ Hps), app_nil_r.
    destruct (Write.start_re_match line) as [g|]; [|reflexivity].
    now rewrite Hstart. }
  destruct (String.prefix "# STOP" line) eqn:Hpt.
  { rewrite (prefix_hash _ _ Hpt), app_nil_r.
    destruct (Write.stop_re_match line) as [g|]; [|reflexivity].
    rewrite Hstop. reflexivity. }
  destruct (String.prefix "#" line); [now rewrite app_nil_r|].
  destruct (List.length (split "," line) =? 9)%nat;
    [reflexivity | now rewrite app_nil_r].
Qed.

Lemma wait_loop_no_markers (mid reads : list (option string)) :
  forallb (no_marker_for target_label) mid = true ->
  forall buf,
    Write.wait_loop target_label buf true (mid ++ reads)
    = Write.wait_loop target_label (buf ++ data_rows mid) true reads.
Proof.
  induction mid as [|raw mid IH]; intros H buf.
  - cbn. now rewrite app_nil_r.
  - cbn [forallb] in H. apply andb_prop in H as [Hr Hm].
    cbn [app]. rewrite (wait_loop_no_marker raw (mid ++ reads) buf Hr).
    rewrite (IH Hm). f_equal.
    change (raw :: mid) with ([raw] ++ mid).
    unfold data_rows. rewrite flat_map_app, app_assoc. reflexivity.
Qed.

Lemma wait_loop_no_start (reads : list (option string)) :
  forallb (no_start_for target_label) reads = true ->
  forall buf, Write.wait_loop target_label buf false reads = None.
Proof.
  induction reads as [|raw reads IH]; intros H buf; [reflexivity|].
  cbn [forallb] in H. apply andb_prop in H as [Hr Hm].
  specialize (IH Hm). unfold no_start_for in Hr.
  apply negb_true_iff in Hr.
  cbn [Write.wait_loop]. set (line := Write.read_line raw) in *.
  destruct (String.eqb line ""); [apply IH|].
  destruct (String.prefix "# START" line).
  { destruct (Write.start_re_match line) as [g|]; [|apply IH].
    rewrite Hr. apply IH. }
  destruct (String.prefix "# STOP" line).
  { destruct (Write.stop_re_match line) as [g|]; [|apply IH].
    rewrite andb_false_r. apply IH. }
  destruct (String.prefix "#" line); [apply IH|].
  destruct (List.length (split "," line) =? 9)%nat; apply IH.
Qed.

Lemma wait_loop_rows (reads : list (option string)) :
  forall buf in_seg rows rest,
    Write.wait_loop target_label buf in_seg reads = Some (rows, rest) ->
    Forall (fun r => List.length r = 9%nat) buf ->
    Forall (fun r => List.length r = 9%nat) rows /\
    exists used, reads = used ++ rest.
Proof.
  induction reads as [|raw reads IH]; intros buf in_seg rows rest H Hbuf;
    [discriminate H|].
  assert (Hnext : forall b s,
             Write.wait_loop target_label b s reads = Some (rows, rest) ->
             Forall (fun r => List.length r = 9%nat) b ->
             Forall (fun r => List.length r = 9%nat) rows /\
             exists used, raw :: reads = used ++ rest).
  { intros b s Hw Hb. destruct (IH b s rows rest Hw Hb) as [Hr [used ->]].
    split; [exact Hr|]. exists (raw :: used). reflexivity. }
  cbn [Write.wait_loop] in H. set (line := Write.read_line raw) in *.
  destruct (String.eqb line ""); [apply (Hnext _ _ H Hbuf)|].
  destruct (String.prefix "# START" line).
  { destruct (Write.start_re_match line) as [g|]; [|apply (Hnext _ _ H Hbuf)].
    destruct (String.eqb g target_label);
      [apply (Hnext _ _ H); constructor | apply (Hnext _ _ H Hbuf)]. }
  destruct (String.prefix "# STOP" line).
  { destruct (Write.stop_re_match line) as [g|]; [|apply (Hnext _ _ H Hbuf)].
    destruct (String.eqb g target_label && in_seg);
      [|apply (Hnext _ _ H Hbuf)].
    inversion H; subst. split; [exact Hbuf|]. exists [raw]. reflexivity. }
  destruct (String.prefix "#" line); [apply (Hnext _ _ H Hbuf)|].
  destruct (List.length (split "," line) =? 9)%nat eqn:H9;
    [|apply (Hnext _ _ H Hbuf)].
  destruct in_seg; [|apply (Hnext _ _ H Hbuf)].
  apply (Hnext _ _ H). apply Forall_app. split; [exact Hbuf|].
  constructor; [|constructor]. apply Nat.eqb_eq. exact H9.
Qed.

End WaitLoop.



(** X22: whatever was buffered before, a START line for the label, reads
    without a START or STOP for that label, and a STOP line for the label
    make the loop return exactly the 9-field data rows read in between, in
    order, and leave the reads after the STOP line; empty reads, [#]
    lines, markers for other labels and rows with another number of fields
    are left out. *)
Theorem wait_for_segment_between_markers
  (target_label : string) (buf : list (list string)) (in_seg : bool)
  (start stop : option string) (mid post : list (option string)) :
  Write.start_re_match (Write.read_line start) = Some target_label ->
  Write.stop_re_match (Write.read_line stop) = Some target_label ->
  forallb (no_marker_for target_label) mid = true ->
  Write.wait_loop target_label buf in_seg (start :: mid ++ stop :: post)
  = Some (data_rows mid, post).
Proof.
  intros Hstart Hstop Hmid.
  destruct (start_marker_shape _ Hstart) as [He Hp].
  destruct (stop_marker_shape _ Hstop) as (He' & Hp' & Hq').
  cbn [Write.wait_loop]. rewrite He, Hp, Hstart, String.eqb_refl.
  rewrite (wait_loop_no_markers target_label mid (stop :: post) Hmid).
  cbn [Write.wait_loop app]. rewrite He', Hp', Hq', Hstop, String.eqb_refl.
  reflexivity.
Qed.

Lemma wait_for_segment_between_markers_witness :
  Write.wait_loop "3" [] false
    (Some "# START,3,120"%string
     :: [Some "20,1,2,3,4,5,6,1,3 "%string; None; Some "# note"%string;
         Some "30,1,2,3"%string; Some "# STOP,7,150"%string;
         Some "40,1,2,3,4,5,6,1,3"%string]
     ++ Some "# STOP,3,160"%string :: [Some "50,1,2,3,4,5,6,0,3"%string])
  = Some (data_rows
            [Some "20,1,2,3,4,5,6,1,3 "%string; None; Some "# note"%string;
             Some "30,1,2,3"%string; Some "# STOP,7,150"%string;
             Some "40,1,2,3,4,5,6,1,3"%string],
          [Some "50,1,2,3,4,5,6,0,3"%string]).
Proof.
  apply (@wait_for_segment_between_markers "3" [] false
           (Some "# START,3,120"%string) (Some "# STOP,3,160"%string)).
  - reflexivity.
  - reflexivity.
  - vm_compute. reflexivity.
Defined.

(** X23: without a START line for the label among the reads,
    [wait_for_segment] does not return: data rows and STOP lines alone,
    also for the label, never give a segment. *)
Theorem wait_for_segment_needs_start
  (target_label : string) (reads : list (option string)) :
  forallb (no_start_for target_label) reads = true ->
  Write.wait_for_segment target_label reads = None.
Proof.
  intros H. apply (wait_loop_no_start target_label reads H).
Qed.

Lemma wait_for_segment_needs_start_witness :
  Write.wait_for_segment "3"
    [Some "20,1,2,3,4,5,6,1,3"%string; Some "# START,7,100"%string;
     Some "30,1,2,3,4,5,6,1,3"%string; Some "# STOP,3,160"%string] = None.
Proof.
  apply (@wait_for_segment_needs_start "3"
           [Some "20,1,2,3,4,5,6,1,3"%string; Some "# START,7,100"%string;
            Some "30,1,2,3,4,5,6,1,3"%string; Some "# STOP,3,160"%string]).
  vm_compute. reflexivity.
Defined.

Lemma rejected_single_digit (lab : string) :
  Write.rejected lab = false ->
  exists c, lab = String c EmptyString /\ is_digit c = true.
Proof.
  intros H. destruct lab as [|c [|c' lab]]; try discriminate H.
  exists c. split; [reflexivity|].
  destruct c as [[] [] [] [] [] [] [] []];
    first [reflexivity | vm_compute in H; discriminate H].
Qed.

Lemma string_length_append (s t : string) :
  String.length (s ++ t) = (String.length s + String.length t)%nat.
Proof.
  induction s as [|c s IH]; [reflexivity|]. cbn [append String.length].
  now rewrite IH.
Qed.

Lemma substring_whole (s : string) : substring 0 (String.length s) s = s.
Proof.
  induction s as [|c s IH]; [reflexivity|]. cbn [String.length substring].
  now rewrite IH.
Qed.

Lemma substring_suffix (pre suf : string) :
  substring (String.length pre) (String.length suf) (pre ++ suf) = suf.
Proof.
  induction pre as [|c pre IH]; [apply substring_whole|].
  cbn [String.length append substring]. exact IH.
Qed.

Lemma fname_matches_glob (c : ascii) (ts : Z) :
  matches_glob (Train.name (Write.fname (String c EmptyString) ts)) = true.
Proof.
  unfold matches_glob, Write.fname. cbn [Train.name].
  set (pre := ("digit_" ++ String c "" ++ "_" ++ Write.str ts)%string).
  replace ("digit_" ++ String c "" ++ "_" ++ Write.str ts ++ ".csv")%string
    with (pre ++ ".csv")%string
    by (subst pre; reflexivity).
  rewrite string_length_append.
  replace (String.length pre + String.length ".csv" - 4)%nat
    with (String.length pre) by (cbn [String.length]; lia).
  pose proof (substring_suffix pre ".csv") as Hsub.
  change (String.length ".csv") with 4%nat in Hsub. rewrite Hsub.
  assert (Hlen : (8 <= String.length pre)%nat)
    by (subst pre; cbn [append String.length]; lia).
  apply andb_true_intro. split; [apply andb_true_intro; split|].
  - subst pre. reflexivity.
  - reflexivity.
  - apply Nat.leb_le. cbn [String.length]. lia.
Qed.

Lemma digit_pat_search_here (s : string) (c : ascii) :
  Train.digit_pat_here s = Some c -> Train.digit_pat_search s = Some c.
Proof.
  intros H. destruct s as [|a s]; [discriminate H|].
  cbn [Train.digit_pat_search]. now rewrite H.
Qed.

Lemma fname_label (c : ascii) (ts : Z) :
  is_digit c = true ->
  Train.label_from_name (Write.fname (String c EmptyString) ts)
  = inr (digit_value c).
Proof.
  intros Hc. unfold Train.label_from_name, Write.fname. cbn [Train.name].
  change ("digit_" ++ String c "" ++ "_" ++ Write.str ts ++ ".csv")%string
    with ("digit_" ++ String c ("_" ++ (Write.str ts ++ ".csv")))%string.
  rewrite (digit_pat_search_here _
             (digit_pat_here_match c (Write.str ts ++ ".csv") Hc)).
  reflexivity.
Qed.

(** X24: every file the capture loop saves is named
    [digit_<d>_<ts>.csv] for a single digit [d] in the directory
    [imu_digits]; the training script's pattern finds that name and
    [label_from_name] reads [d] back from it; what is written is the
    9-column header followed by at least one row, each of 9 fields. *)
Theorem saved_files_are_labelled
  (typed : list (string * Z)) (reads : list (option string)) :
  Forall
    (fun f =>
       exists (c : ascii) (ts : Z) (rows : list (list string)),
         is_digit c = true /\
         Write.path f = Write.fname (String c EmptyString) ts /\
         Train.parent (Write.path f) = Write.OUT /\
         matches_glob (Train.name (Write.path f)) = true /\
         Train.label_from_name (Write.path f) = inr (digit_value c) /\
         Write.written f = Write.header :: rows /\
         List.length Write.header = 9%nat /\
         rows <> [] /\
         Forall (fun r => List.length r = 9%nat) rows)
    (Write.main_loop typed reads).
Proof.
  revert reads. induction typed as [|[entered ts] typed IH]; intros reads;
    [constructor|].
  cbn [Write.main_loop].
  destruct (String.eqb (Write.lower (strip entered)) "q"); [constructor|].
  destruct (Write.rejected (strip entered)) eqn:Hrej; [apply IH|].
  destruct (rejected_single_digit _ Hrej) as (c & Hlab & Hc).
  destruct (Write.wait_for_segment (strip entered) reads) as [[rows reads']|] eqn:Hw;
    [|constructor].
  destruct rows as [|row rows]; [apply IH|].
  constructor; [|apply IH].
  exists c, ts, (row :: rows). cbn [Write.path Write.written]. rewrite Hlab.
  split; [exact Hc|]. split; [reflexivity|]. split; [reflexivity|].
  split; [apply fname_matches_glob|].
  split; [apply fname_label; exact Hc|].
  split; [reflexivity|]. split; [reflexivity|]. split; [discriminate|].
  unfold Write.wait_for_segment in Hw.
  eapply wait_loop_rows; [exact Hw | constructor].
Qed.

(* ================================================================= *)
(** ** What the inference loop skips *)

(** X25: the loop prints a skip, and calls neither the feature extraction
    nor the classifier, for a closed segment of fewer than 8 rows, and for
    one of any length whose rows have [state == 1] and non-decreasing
    timestamps that span less than 400 ms. *)
Theorem report_skips_short_segments {F : Type} {A : Arith F}
  (predict : list F -> Z) (segment : list (Rec F)) :
  segment <> [] ->
  Z.of_nat (List.length segment) < 8 \/
  (Forall writing segment /\
   is_monotonic_increasing (map (@t_ms F) segment) = true /\
   last_t segment - first_t segment < 400) ->
  Infer.report predict segment = inr Infer.SKIP.
Proof.
  intros Hne Hcase. unfold Infer.report.
  assert (Hdf : DataFrame_of_records segment = mkDF record_keys segment)
    by (destruct segment; [congruence | reflexivity]).
  rewrite Hdf.
  rewrite (infer_keep_writing_segment_trimmed (mkDF record_keys segment) eq_refl).
  cbn [bind].
  assert (He : empty (trimmed (mkDF record_keys segment)) = true).
  { destruct Hcase as [Hshort|(Hw & Hm & Hspan)].
    - rewrite trimmed_short; [reflexivity|].
      pose proof (writing_rows_length_le (mkDF record_keys segment)) as Hle.
      unfold len in Hle. cbn [rows] in Hle. lia.
    - assert (Hall : writing_rows (mkDF record_keys segment) = segment).
      { unfold writing_rows. cbn [rows]. apply filter_all.
        eapply Forall_impl; [|exact Hw]. cbn. intros r Hr.
        unfold active. apply Z.eqb_eq. exact Hr. }
      unfold empty, len.
      rewrite (@trimmed_short_span F (mkDF record_keys segment));
        [cbn; apply orb_true_r | reflexivity | |]; rewrite Hall; assumption. }
  rewrite He. reflexivity.
Qed.

Lemma report_skips_short_segments_witness :
  Infer.report (fun _ : list float => 7)
    (map still [0; 30; 60; 90; 120; 150; 180; 210; 240; 270])
  = inr Infer.SKIP.
Proof.
  apply (@report_skips_short_segments float float64 (fun _ => 7)
           (map still [0; 30; 60; 90; 120; 150; 180; 210; 240; 270])).
  - discriminate.
  - right. split; [repeat constructor|]. split; vm_compute; reflexivity.
Defined.
